(** * cmmv-express: the Express adapter's binding and dispatch pipeline

    A shallow embedding of [ExpressAdapter] (the adapter class of the
    package): [fullPath] construction, [buildRouteArgs], the per-route
    dispatch closure built by [registerControllers], the controller binder
    itself, and [close] with its open-connection set.

    Conventions of the embedding.
    - JavaScript values are the inductive [JsVal]; numbers are the integers
      the adapter produces (status codes, millisecond differences).
    - Strings are Rocq strings; lower-casing acts on ASCII letters.
    - User code (handlers, interceptors, after-render hooks, middlewares)
      is a state transformer on the [Host] state that may return or throw;
      every awaited callback settles. The request object is read by them,
      not rewritten; an after-render hook may rewrite the content object it
      is handed, and says what it left of it.
    - What the adapter itself does that is visible from outside (calling a
      user callback, writing on the response, [console.error], [next(err)])
      is emitted as a list of [Event]s: an event records the call and its
      argument, what the server library makes of it is not modelled.
      Writing on the response and the telemetry calls do not throw. *)

From stdpp Require Import base option list strings gmap fin_maps.
From Stdlib Require Import Ascii ZArith Lia.
From Stdlib Require DecimalNat DecimalString.

Set Warnings "-register-all,-clear-no-such-hyp".

Open Scope Z_scope.
Open Scope string_scope.
Open Scope list_scope.

(** ** JavaScript values *)

Module Js.

Inductive JsVal : Type :=
| VUndefined
| VNull
| VBool (b : bool)
| VNum (n : Z)
| VStr (s : string)
| VObj (fields : list (string * JsVal))
| VArr (items : list JsVal)
| VHost (name : string).
(* [VHost] stands for a live host object or function handed around by
   reference: the request, the response, [next], a socket. *)

(** [ToBoolean]. *)
Definition truthy (v : JsVal) : bool :=
  match v with
  | VUndefined | VNull => false
  | VBool b => b
  | VNum n => negb (n =? 0)%Z
  | VStr s => negb (String.eqb s "")
  | VObj _ | VArr _ | VHost _ => true
  end.

(** Result of evaluating something that may throw. *)
Inductive Outcome (A : Type) : Type :=
| Return (a : A)
| Throw (e : JsVal).
Arguments Return {A} a.
Arguments Throw {A} e.

Definition TypeError (msg : string) : JsVal :=
  VObj [("name", VStr "TypeError"); ("message", VStr msg)].

Definition Error (msg : string) : JsVal :=
  VObj [("name", VStr "Error"); ("message", VStr msg)].

(** Own-property lookup in an object literal; a missing key reads
    [undefined]. *)
Fixpoint obj_get (fields : list (string * JsVal)) (k : string) : JsVal :=
  match fields with
  | [] => VUndefined
  | (k', v) :: rest => if String.eqb k' k then v else obj_get rest k
  end.

(** [v[k]] for an arbitrary value: reading a property of [undefined] or
    [null] throws; primitives and host objects have no own property of
    the names the adapter reads. *)
Definition get_prop (v : JsVal) (k : string) : Outcome JsVal :=
  match v with
  | VUndefined =>
      Throw (TypeError ("Cannot read properties of undefined (reading '" +:+ k +:+ "')"))
  | VNull =>
      Throw (TypeError ("Cannot read properties of null (reading '" +:+ k +:+ "')"))
  | VObj fields => Return (obj_get fields k)
  | _ => Return VUndefined
  end.

(** [obj[k] = v]: replaces the property when present, appends it
    otherwise. *)
Fixpoint obj_set (fields : list (string * JsVal)) (k : string) (v : JsVal)
  : list (string * JsVal) :=
  match fields with
  | [] => [(k, v)]
  | (k', v') :: rest =>
      if String.eqb k' k then (k, v) :: rest else (k', v') :: obj_set rest k v
  end.

(** *** Strings *)

Definition lower_ascii (c : ascii) : ascii :=
  let n := Ascii.nat_of_ascii c in
  if ((65 <=? n) && (n <=? 90))%nat then Ascii.ascii_of_nat (n + 32) else c.

Fixpoint toLowerCase (s : string) : string :=
  match s with
  | EmptyString => EmptyString
  | String c rest => String (lower_ascii c) (toLowerCase rest)
  end.

(** [s.split(sep)] for a one-character separator. *)
Fixpoint split (sep : ascii) (s : string) : list string :=
  match s with
  | EmptyString => [EmptyString]
  | String c rest =>
      if Ascii.eqb c sep then EmptyString :: split sep rest
      else match split sep rest with
           | [] => [String c EmptyString]
           | hd :: tl => String c hd :: tl
           end
  end.

(** *** Arrays with holes

    [const args = []; args[i] = v] grows the array, leaving holes below
    [i]. A hole is [None]; it reads as [undefined]. *)
Abbreviation JsArray := (list (option JsVal)).

Definition array_set (a : JsArray) (i : nat) (v : JsVal) : JsArray :=
  if (i <? length a)%nat then <[i := Some v]> a
  else a ++ replicate (i - length a) None ++ [Some v].

Definition array_get (a : JsArray) (i : nat) : JsVal :=
  match a !! i with
  | Some (Some v) => v
  | _ => VUndefined
  end.

(** [...args] *)
Definition spread (a : JsArray) : list JsVal :=
  map (fun slot => match slot with Some v => v | None => VUndefined end) a.

End Js.
Import Js.

(** ** Requests *)

(** The part of an Express request the adapter reads. [params], [query]
    and [headers] are always objects on an Express request; they are kept
    as their property lists. *)
Record Request : Type := mkRequest {
  req_method : string;
  req_route_path : string;
  requestId : string;
  req_body : JsVal;
  req_params : list (string * JsVal);
  req_query : list (string * JsVal);
  req_headers : list (string * JsVal);
  req_session : JsVal;
  req_user : JsVal;
  req_ip : JsVal;
  req_hosts : JsVal
}.

(** The request, the response and [next] as values passed to a handler. *)
Definition req_ref (req : Request) : JsVal := VHost ("req:" +:+ requestId req).
Definition res_ref (req : Request) : JsVal := VHost ("res:" +:+ requestId req).
Definition next_ref (req : Request) : JsVal := VHost ("next:" +:+ requestId req).

(** ** Parameter resolver: [buildRouteArgs] *)

Record ParamDescriptor : Type := mkParam {
  paramType : string;
  index : nat
}.

Module Resolver.

(** [const [paramType, paramName] = param.paramType.split(':')]:
    a missing second component is [undefined]. *)
Definition destructure (p : ParamDescriptor) : string * option string :=
  match split ":"%char (paramType p) with
  | [] => ("", None)
  | [k] => (k, None)
  | k :: n :: _ => (k, Some n)
  end.

(** [obj[paramName]] with a possibly undefined [paramName]: the key is
    then the string "undefined". *)
Definition key_of (name : option string) : string :=
  match name with Some n => n | None => "undefined" end.

(** The value selected by the [switch]; only [header] can throw, when
    [paramName] is undefined and [.toLowerCase()] is called on it. *)
Definition resolveParam (req : Request) (p : ParamDescriptor) : Outcome JsVal :=
  let '(kind, name) := destructure p in
  if String.eqb kind "body" then Return (req_body req)
  else if String.eqb kind "param" then Return (obj_get (req_params req) (key_of name))
  else if String.eqb kind "query" then Return (obj_get (req_query req) (key_of name))
  else if String.eqb kind "queries" then Return (VObj (req_query req))
  else if String.eqb kind "header" then
    match name with
    | Some n => Return (obj_get (req_headers req) (toLowerCase n))
    | None =>
        Throw (TypeError "Cannot read properties of undefined (reading 'toLowerCase')")
    end
  else if String.eqb kind "headers" then Return (VObj (req_headers req))
  else if String.eqb kind "request" then Return (req_ref req)
  else if String.eqb kind "response" then Return (res_ref req)
  else if String.eqb kind "next" then Return (next_ref req)
  else if String.eqb kind "session" then Return (req_session req)
  else if String.eqb kind "user" then Return (req_user req)
  else if String.eqb kind "ip" then Return (req_ip req)
  else if String.eqb kind "hosts" then Return (req_hosts req)
  else Return VUndefined.

(** One iteration of the [forEach] body: [args[param.index] = ...]. *)
Definition placeParam (req : Request) (args : JsArray) (p : ParamDescriptor)
  : Outcome JsArray :=
  match resolveParam req p with
  | Return v => Return (array_set args (index p) v)
  | Throw e => Throw e
  end.

Fixpoint placeAll (req : Request) (args : JsArray) (ps : list ParamDescriptor)
  : Outcome JsArray :=
  match ps with
  | [] => Return args
  | p :: rest =>
      match placeParam req args p with
      | Return args' => placeAll req args' rest
      | Throw e => Throw e
      end
  end.

(** [params?.forEach(...)]: an undefined [params] leaves [args] empty. *)
Definition buildRouteArgs (req : Request) (params : option (list ParamDescriptor))
  : Outcome JsArray :=
  match params with
  | None => Return []
  | Some ps => placeAll req [] ps
  end.

(** The kinds the [switch] has a [case] for. *)
Definition knownKinds : list string :=
  ["body"; "param"; "query"; "queries"; "header"; "headers"; "request";
   "response"; "next"; "session"; "user"; "ip"; "hosts"].

(** The source kind of a descriptor: the text before the first colon. *)
Definition sourceKind (p : ParamDescriptor) : string := fst (destructure p).

End Resolver.

(** ** Route paths *)

(** [`/${prefix}${route.path ? '/' + route.path : ''}`]; an undefined or
    empty [route.path] is falsy. *)
Definition fullPath (prefix : string) (path : option string) : string :=
  "/" +:+ prefix +:+
  match path with
  | Some p => if String.eqb p "" then "" else "/" +:+ p
  | None => ""
  end.

Module Path.

Definition is_slash (c : ascii) : bool := Ascii.eqb c "/"%char.

Definition starts_with_slash (s : string) : bool :=
  match s with
  | String c _ => is_slash c
  | EmptyString => false
  end.

Fixpoint ends_with_slash (s : string) : bool :=
  match s with
  | EmptyString => false
  | String c EmptyString => is_slash c
  | String _ rest => ends_with_slash rest
  end.

(** Two adjacent separators somewhere in the path. *)
Fixpoint has_duplicate_separator (s : string) : bool :=
  match s with
  | EmptyString => false
  | String c rest =>
      (is_slash c && starts_with_slash rest) || has_duplicate_separator rest
  end.

(** Number of slashes the path begins with. *)
Fixpoint leading_slashes (s : string) : nat :=
  match s with
  | String c rest => if is_slash c then S (leading_slashes rest) else O
  | EmptyString => O
  end.

(** A normalized path: exactly one leading slash, no duplicate
    separators. *)
Definition normalized (s : string) : bool :=
  Nat.eqb (leading_slashes s) 1 && negb (has_duplicate_separator s).

End Path.

(** ** Telemetry recorder *)

Module Telemetry.

Record Span : Type := mkSpan {
  label : string;
  startTime : Z;
  endTime : option Z
}.

Definition Store : Type := gmap string (list Span).

(** Modelled from the spec: [Telemetry.start(spanName, requestId)] of the
    core package, which is not part of this repository. It opens a span
    under the request identifier. *)
Definition start (name rid : string) (now : Z) (st : gmap string (list Span))
  : gmap string (list Span) :=
  <[rid := default [] (st !! rid) ++ [mkSpan name now None]]> st.

Fixpoint close_first (name : string) (now : Z) (spans : list Span) : list Span :=
  match spans with
  | [] => []
  | s :: rest =>
      match endTime s with
      | None =>
          if String.eqb (label s) name then mkSpan (label s) (startTime s) (Some now) :: rest
          else s :: close_first name now rest
      | Some _ => s :: close_first name now rest
      end
  end.

(** Modelled from the spec: [Telemetry.end(spanName, requestId)] ([end]
    is a keyword here, hence the name); closes the first open span of that
    name, if any. *)
Definition finish (name rid : string) (now : Z) (st : gmap string (list Span))
  : gmap string (list Span) :=
  alter (close_first name now) rid st.

(** Modelled from the spec: [Telemetry.getTelemetry(requestId)], the
    ordered list of span records of the request. *)
Definition getTelemetry (rid : string) (st : gmap string (list Span)) : list Span :=
  default [] (st !! rid).

(** Modelled from the spec: [Telemetry.clearTelemetry(requestId)]; drops
    every entry of the request identifier. *)
Definition clearTelemetry (rid : string) (st : gmap string (list Span))
  : gmap string (list Span) :=
  delete rid st.

Definition span_json (s : Span) : JsVal :=
  VObj [("label", VStr (label s)); ("startTime", VNum (startTime s));
        ("endTime", match endTime s with Some t => VNum t | None => VUndefined end)].

Definition snapshot (spans : list Span) : JsVal := VArr (map span_json spans).

(** No entry is held for the request identifier. *)
Definition cleared (rid : string) (st : gmap string (list Span)) : Prop :=
  st !! rid = None.

End Telemetry.

(** ** Observable actions of the adapter *)

Inductive Event : Type :=
| EvInterceptor (k : nat) (ret : Outcome JsVal)  (* k-th interceptor awaited, with its outcome *)
| EvHandler (name : string) (args : list JsVal) (ret : Outcome JsVal)
                                                 (* instance[name](...args) awaited, with its outcome *)
| EvAfterRender (k : nat) (content : JsVal)      (* k-th after-render hook invoked *)
| EvMiddleware (k : nat)                         (* k-th route middleware invoked *)
| EvStatus (code : Z)                            (* res.status(code) *)
| EvJson (body : JsVal)                          (* res.json(body) was called *)
| EvSend (body : JsVal)                          (* res.send(body) was called *)
| EvConsoleError (e : JsVal)                     (* console.error(..., e) *)
| EvNext (e : JsVal).                            (* next(e) *)

Definition is_response (ev : Event) : bool :=
  match ev with EvJson _ | EvSend _ => true | _ => false end.

Definition is_handler_call (ev : Event) : bool :=
  match ev with EvHandler _ _ _ => true | _ => false end.

Definition is_after_render (ev : Event) : bool :=
  match ev with EvAfterRender _ _ => true | _ => false end.

Definition is_interceptor_event (ev : Event) : bool :=
  match ev with EvInterceptor _ _ => true | _ => false end.

Definition is_short_circuit (ev : Event) : bool :=
  match ev with EvInterceptor _ (Return v) => truthy v | _ => false end.

(** The response-writing calls made by the adapter, in order. *)
Definition responses (t : list Event) : list Event := List.filter is_response t.

(** A status set on the response is 200 or 500, and a JSON body written
    on it is an envelope whose [status] field is 200 or 500. *)
Definition status_ok (ev : Event) : bool :=
  match ev with
  | EvJson (VObj fields) =>
      match obj_get fields "status" with
      | VNum n => (n =? 200)%Z || (n =? 500)%Z
      | _ => false
      end
  | EvJson _ => false
  | EvStatus code => (code =? 200)%Z || (code =? 500)%Z
  | _ => true
  end.

(** The controller method returned a value for which the adapter writes
    nothing: not JSON, and falsy. *)
Definition is_silent_result (isJson : JsVal -> bool) (ev : Event) : bool :=
  match ev with
  | EvHandler _ _ (Return v) => negb (isJson v) && negb (truthy v)
  | _ => false
  end.

(** ** The host application *)

(** State that user callbacks act on: the application's own state, the
    wall clock read by [Date.now()], and the telemetry store, which user
    code may also write to. *)
Record Host (U : Type) : Type := mkHost {
  user : U;
  now : Z;
  tele : gmap string (list Telemetry.Span)
}.
Arguments mkHost {U} _ _ _.
Arguments user {U} _.
Arguments now {U} _.
Arguments tele {U} _.

Definition with_tele {U} (f : gmap string (list Telemetry.Span) -> gmap string (list Telemetry.Span))
  (h : Host U) : Host U :=
  mkHost (user h) (now h) (f (tele h)).

(** Adapter code: reads and writes the host state, may throw, and emits
    events. *)
Definition M (U A : Type) : Type := Host U -> Outcome A * Host U * list Event.

Definition ret {U A} (a : A) : M U A := fun h => (Return a, h, []).

Definition bind {U A B} (m : M U A) (f : A -> M U B) : M U B :=
  fun h =>
    match m h with
    | (Return a, h1, t1) =>
        match f a h1 with
        | (r, h2, t2) => (r, h2, t1 ++ t2)
        end
    | (Throw e, h1, t1) => (Throw e, h1, t1)
    end.

Notation "'let!' x ':=' m 'in' k" := (bind m (fun x => k))
  (at level 10, x name, m at level 100, k at level 200).

Definition emit {U} (ev : Event) : M U unit := fun h => (Return tt, h, [ev]).

Definition lift {U A} (r : Outcome A) : M U A := fun h => (r, h, []).

Definition dateNow {U} : M U Z := fun h => (Return (now h), h, []).

Definition telemetryStart {U} (name rid : string) : M U unit :=
  fun h => (Return tt, with_tele (Telemetry.start name rid (now h)) h, []).

Definition telemetryEnd {U} (name rid : string) : M U unit :=
  fun h => (Return tt, with_tele (Telemetry.finish name rid (now h)) h, []).

Definition telemetryGet {U} (rid : string) : M U JsVal :=
  fun h => (Return (Telemetry.snapshot (Telemetry.getTelemetry rid (tele h))), h, []).

Definition telemetryClear {U} (rid : string) (h : Host U) : Host U :=
  with_tele (Telemetry.clearTelemetry rid) h.

(** ** User-supplied code *)

Section UserCode.
Context (U : Type).

(** A controller method, called with the spread arguments. *)
Definition Handler : Type := list JsVal -> Host U -> Outcome JsVal * Host U.

(** A controller instance, as the adapter uses it: [instance[name]]. *)
Definition ControllerInstance : Type := string -> option Handler.

(** [interceptor(id, {req, res, next, handler})]. *)
Definition Interceptor : Type :=
  string -> Request -> option Handler -> Host U -> Outcome JsVal * Host U.

(** [afterRender(id, {req, res, next, handler, content})]; its value is
    discarded. The hook is handed the content by reference: the last
    component is the content object as the hook left it, equal to the
    content it was handed for a hook that only reads it. *)
Definition AfterRender : Type :=
  string -> Request -> option Handler -> JsVal -> Host U
  -> Outcome unit * Host U * JsVal.

(** The hook leaves the content it is handed as it is. *)
Definition observes (a : AfterRender) : Prop :=
  forall (key : string) (req : Request) (handlerRef : option Handler)
         (content : JsVal) (h : Host U),
    snd (a key req handlerRef content h) = content.

(** [middleware(req, res, cb)]: [Return err] is the value passed to the
    completion callback, [Throw e] a synchronous exception. *)
Definition Middleware : Type := Request -> Host U -> Outcome JsVal * Host U.

(** [Application.appModule]. *)
Record AppModule : Type := mkAppModule {
  httpInterceptors : list Interceptor;
  httpAfterRender : list AfterRender
}.

Record RouteDescriptor : Type := mkRoute {
  method : string;
  path : option string;
  handlerName : string;
  params : option (list ParamDescriptor);
  middlewares : option (list Middleware)
}.

Record ControllerMeta : Type := mkMeta {
  prefix : string;
  routes : list RouteDescriptor
}.

(** A controller class: the names of its constructor parameter types
    (the [design:paramtypes] metadata, absent for a class without any)
    and its constructor. *)
Record ControllerClass : Type := mkClass {
  paramtypes : option (list string);
  construct : list JsVal -> Outcome ControllerInstance
}.

End UserCode.

Arguments observes {U} _.
Arguments httpInterceptors {U} _.
Arguments httpAfterRender {U} _.
Arguments mkAppModule {U} _ _.
Arguments method {U} _.
Arguments path {U} _.
Arguments handlerName {U} _.
Arguments params {U} _.
Arguments middlewares {U} _.
Arguments mkRoute {U} _ _ _ _ _.
Arguments prefix {U} _.
Arguments routes {U} _.
Arguments mkMeta {U} _ _.
Arguments paramtypes {U} _.
Arguments construct {U} _.
Arguments mkClass {U} _ _.

(** ** The dispatch closure of one route *)

Section Dispatch.
Context {U : Type}.

(** [this.isJson], inherited from the core package's abstract adapter. *)
Variable isJson : JsVal -> bool.

(** [crypto.createHash('md5').update(s).digest('hex')]. *)
Variable md5hex : string -> string.

Variable app : AppModule U.
Variable instance : ControllerInstance U.
Variable route : RouteDescriptor U.

(** [`${req.method}::${req.route.path}`] *)
Definition routeKey (req : Request) : string :=
  req_method req +:+ "::" +:+ req_route_path req.

(** The value assigned to [req.contextId] when the [try] block is
    entered. *)
Definition contextId (req : Request) : string := md5hex (routeKey req).

(** [await interceptor(id, ctx)] *)
Definition awaitInterceptor (k : nat) (i : Interceptor U) (req : Request) : M U JsVal :=
  fun h =>
    match i (toLowerCase (routeKey req)) req (instance (handlerName route)) h with
    | (r, h1) => (r, h1, [EvInterceptor k r])
    end.

(** The [for ... of] loop over the interceptors; [true] when it was left
    by [return]. *)
Fixpoint runInterceptors (k : nat) (ints : list (Interceptor U)) (req : Request)
  : M U bool :=
  match ints with
  | [] => ret false
  | i :: rest =>
      let! breakProcess := awaitInterceptor k i req in
      if truthy breakProcess then ret true
      else runInterceptors (S k) rest req
  end.

(** What the adapter holds after a hook was handed [content]: an object,
    an array or a host object is shared with the hook and is what the hook
    left of it; a primitive cannot be rewritten. *)
Definition rewritten (content after : JsVal) : JsVal :=
  match content, after with
  | VObj _, VObj _ => after
  | VArr _, VArr _ => after
  | VHost _, VHost _ => after
  | _, _ => content
  end.

(** [await afterRender(id, ctx)]; the result is the content as it is
    after the hook. *)
Definition awaitAfterRender (k : nat) (a : AfterRender U) (req : Request)
  (content : JsVal) : M U JsVal :=
  fun h =>
    match a (toLowerCase (routeKey req)) req (instance (handlerName route)) content h with
    | (Return _, h1, after) => (Return (rewritten content after), h1, [EvAfterRender k content])
    | (Throw e, h1, _) => (Throw e, h1, [EvAfterRender k content])
    end.

(** The [for ... of] loop over the hooks: each hook is handed the same
    object, as the hooks before it left it. *)
Fixpoint runAfterRender (k : nat) (hooks : list (AfterRender U)) (req : Request)
  (content : JsVal) : M U JsVal :=
  match hooks with
  | [] => ret content
  | a :: rest =>
      let! content' := awaitAfterRender k a req content in
      runAfterRender (S k) rest req content'
  end.

(** [if (Application.appModule.httpInterceptors.length > 0) { for ... }] *)
Definition interceptorLoop (req : Request) : M U bool :=
  if (0 <? length (httpInterceptors app))%nat
  then runInterceptors 0 (httpInterceptors app) req
  else ret false.

(** [if (Application.appModule.httpAfterRender.length > 0) { for ... }] *)
Definition afterRenderLoop (req : Request) (content : JsVal) : M U JsVal :=
  if (0 <? length (httpAfterRender app))%nat
  then runAfterRender 0 (httpAfterRender app) req content
  else ret content.

(** [await instance[route.handlerName](...args)] *)
Definition invokeHandler (args : list JsVal) : M U JsVal :=
  match instance (handlerName route) with
  | Some f =>
      fun h => match f args h with (r, h1) => (r, h1, [EvHandler (handlerName route) args r]) end
  | None => lift (Throw (TypeError "instance[route.handlerName] is not a function"))
  end.

(** [if (req.query.debug) { response['requestId'] = ...;
    response['telemetry'] = ... }] *)
Definition withDebug (req : Request) (telemetry : JsVal)
  (response : list (string * JsVal)) : list (string * JsVal) :=
  if truthy (obj_get (req_query req) "debug")
  then obj_set (obj_set response "requestId" (VStr (requestId req))) "telemetry" telemetry
  else response.

(** The [try] block from [buildRouteArgs] on: argument resolution, the
    controller method, and the response. *)
Definition afterInterceptors (startTime : Z) (req : Request) : M U bool :=
  let! args := lift (Resolver.buildRouteArgs req (params route)) in
  let! _ := telemetryStart "Controller Handler" (requestId req) in
  let! result := invokeHandler (spread args) in
  let! _ := telemetryEnd "Controller Handler" (requestId req) in
  let! t := dateNow in
  let processingTime := t - startTime in
  let! _ := telemetryEnd "Request Process" (requestId req) in
  let! telemetry := telemetryGet (requestId req) in
  if isJson result then
    let response :=
      withDebug req telemetry
        [("status", VNum 200); ("processingTime", VNum processingTime);
         ("data", result)] in
    let! sent := afterRenderLoop req (VObj response) in
    let! _ := emit (EvJson sent) in
    ret false
  else if truthy result then
    let! sent := afterRenderLoop req result in
    let! _ := emit (EvStatus 200) in
    let! _ := emit (EvSend sent) in
    ret false
  else ret false.

(** The body of the [try] block. The result is [true] when the function
    returned from inside the interceptor loop. The block first assigns
    [contextId req] to [req.contextId], which nothing in the closure reads
    afterwards. *)
Definition tryBlock (startTime : Z) (req : Request) : M U bool :=
  let! breakProcess := interceptorLoop req in
  if breakProcess then ret true
  else afterInterceptors startTime req.

(** The [catch (error)] block. *)
Definition catchBlock (startTime : Z) (req : Request) (error : JsVal) : M U unit :=
  let! _ := emit (EvConsoleError error) in
  let! t := dateNow in
  let processingTime := t - startTime in
  let! _ := telemetryEnd "Request Process" (requestId req) in
  let! telemetry := telemetryGet (requestId req) in
  let! message := lift (get_prop error "message") in
  let response :=
    withDebug req telemetry
      [("status", VNum 500); ("processingTime", VNum processingTime);
       ("message", if truthy message then message else VStr "Internal Server Error")] in
  let! _ := emit (EvStatus 500) in
  emit (EvJson (VObj response)).

(** The [handler] closure: [try { ... } catch { ... }] followed by
    [Telemetry.clearTelemetry(req.requestId)]. A [return] inside the
    [try] block leaves the function at once. *)
Definition handler (req : Request) : M U unit :=
  fun h =>
    let startTime := now h in
    match tryBlock startTime req h with
    | (Return true, h1, t1) => (Return tt, h1, t1)
    | (Return false, h1, t1) => (Return tt, telemetryClear (requestId req) h1, t1)
    | (Throw error, h1, t1) =>
        match catchBlock startTime req error h1 with
        | (Return _, h2, t2) => (Return tt, telemetryClear (requestId req) h2, t1 ++ t2)
        | (Throw e, h2, t2) => (Throw e, h2, t1 ++ t2)
        end
    end.

(** [await new Promise((resolve, reject) => middleware(req, res, cb))] *)
Definition awaitMiddleware (k : nat) (mw : Middleware U) (req : Request) : M U unit :=
  fun h =>
    match mw req h with
    | (Return err, h1) =>
        (if truthy err then Throw err else Return tt, h1, [EvMiddleware k])
    | (Throw e, h1) => (Throw e, h1, [EvMiddleware k])
    end.

Fixpoint runMiddlewares (k : nat) (mws : list (Middleware U)) (req : Request)
  : M U unit :=
  match mws with
  | [] => ret tt
  | mw :: rest =>
      let! _ := awaitMiddleware k mw req in
      runMiddlewares (S k) rest req
  end.

(** The wrapper registered when [route.middlewares] is set. *)
Definition wrappedHandler (mws : list (Middleware U)) (req : Request) : M U unit :=
  fun h =>
    match (let! _ := runMiddlewares 0 mws req in handler req) h with
    | (Return _, h1, t1) => (Return tt, h1, t1)
    | (Throw error, h1, t1) =>
        (Return tt, h1, t1 ++ [EvConsoleError error; EvNext error])
    end.

(** What Express calls for a request matching the route. *)
Definition dispatch (req : Request) : M U unit :=
  match middlewares route with
  | Some mws => wrappedHandler mws req
  | None => handler req
  end.

End Dispatch.

(** ** Controller binder: [registerControllers] *)

(** A property of the underlying server object [this.instance]: a
    function, or some other value. A function comes with what the call
    [this.instance[method](fullPath, closure)] does for a path: it throws
    (Express compiles the path when a route is added and throws on a
    pattern it cannot compile), or it returns, having added the closure to
    the routes of the server ([true]) or not ([false]: a function that is
    no registration method, such as [app.enabled]). *)
Inductive Member : Type :=
| Method (call : string -> Outcome bool)
| Data (v : JsVal).

Section Binder.
Context {U : Type}.

(** [this.instance[name]] is truthy. *)
Definition member_truthy (inst : gmap string Member) (name : string) : bool :=
  match inst !! name with
  | Some (Method _) => true
  | Some (Data v) => truthy v
  | None => false
  end.

(** An entry of the server's route table, added by a registration call
    that returned: the method, the path and the closure registered there
    (determined by the bound controller instance and the route it closes
    over). *)
Record Registration : Type := mkRegistration {
  reg_method : string;
  reg_path : string;
  reg_instance : ControllerInstance U;
  reg_route : RouteDescriptor U
}.

(** The body of [routes.forEach]. *)
Definition registerRoute (inst : gmap string Member) (ci : ControllerInstance U)
  (pfx : string) (table : list Registration) (route : RouteDescriptor U)
  : Outcome (list Registration) :=
  let full := fullPath pfx (path route) in
  let m := toLowerCase (method route) in
  if member_truthy inst m then
    match inst !! m with
    | Some (Method call) =>
        match call full with
        | Return true => Return (table ++ [mkRegistration m full ci route])
        | Return false => Return table
        | Throw e => Throw e
        end
    | _ => Throw (TypeError "this.instance[method] is not a function")
    end
  else Return table.

Fixpoint registerRoutes (inst : gmap string Member) (ci : ControllerInstance U)
  (pfx : string) (table : list Registration) (rs : list (RouteDescriptor U))
  : Outcome (list Registration) :=
  match rs with
  | [] => Return table
  | r :: rest =>
      match registerRoute inst ci pfx table r with
      | Return table' => registerRoutes inst ci pfx table' rest
      | Throw e => Throw e
      end
  end.

(** [paramTypes.map(t => this.application.providersMap.get(t.name))];
    [Map.prototype.get] gives [undefined] for a missing key. *)
Definition resolveDependencies (providers : gmap string JsVal)
  (types : option (list string)) : list JsVal :=
  map (fun name => default VUndefined (providers !! name)) (default [] types).

(** The body of [controllers.forEach]. *)
Definition bindController (providers : gmap string JsVal) (inst : gmap string Member)
  (table : list Registration) (c : ControllerClass U * ControllerMeta U)
  : Outcome (list Registration) :=
  match construct (fst c) (resolveDependencies providers (paramtypes (fst c))) with
  | Return ci => registerRoutes inst ci (prefix (snd c)) table (routes (snd c))
  | Throw e => Throw e
  end.

Fixpoint bindControllers (providers : gmap string JsVal) (inst : gmap string Member)
  (table : list Registration) (cs : list (ControllerClass U * ControllerMeta U))
  : Outcome (list Registration) :=
  match cs with
  | [] => Return table
  | c :: rest =>
      match bindController providers inst table c with
      | Return table' => bindControllers providers inst table' rest
      | Throw e => Throw e
      end
  end.

Definition registerControllers (providers : gmap string JsVal)
  (inst : gmap string Member) (cs : list (ControllerClass U * ControllerMeta U))
  : Outcome (list Registration) :=
  bindControllers providers inst [] cs.

(** Binding ended in an exception. *)
Definition binding_fails (r : Outcome (list Registration)) : Prop :=
  match r with Throw _ => True | Return _ => False end.

End Binder.

Arguments Registration U : clear implicits.

(** ** Server lifecycle: connection tracking and [close] *)

Record HttpServer : Type := mkServer { listening : bool }.

(** What [close()] evaluates to. *)
Inductive CloseResult : Type :=
| ReturnsUndefined
| Resolves (v : JsVal)
| Rejects (e : JsVal).

Record Adapter : Type := mkAdapter {
  openConnections : gset nat;       (* the sockets in the tracked set *)
  destroyed : gset nat;             (* the sockets [destroy()] was called on *)
  httpServer : option HttpServer;   (* [this.httpServer] *)
  instance_enabled : JsVal          (* the value of [this.instance.enabled] *)
}.

Section Lifecycle.

(** [httpServer.close(cb)] of the transport: the value passed to the
    callback, or an exception thrown by the call itself. *)
Variable serverClose : HttpServer -> Outcome JsVal * HttpServer.

(** The ['connection'] listener installed by [trackOpenConnections]. *)
Definition onConnection (socket : nat) (a : Adapter) : Adapter :=
  mkAdapter (openConnections a ∪ {[socket]}) (destroyed a) (httpServer a)
    (instance_enabled a).

(** The socket's ['close'] listener. *)
Definition onSocketClose (socket : nat) (a : Adapter) : Adapter :=
  mkAdapter (openConnections a ∖ {[socket]}) (destroyed a) (httpServer a)
    (instance_enabled a).

(** The loop body: [socket.destroy(); this.openConnections.delete(socket)]. *)
Definition destroySocket (a : Adapter) (socket : nat) : Adapter :=
  mkAdapter (openConnections a ∖ {[socket]}) (destroyed a ∪ {[socket]})
    (httpServer a) (instance_enabled a).

(** [for (const socket of this.openConnections)]: every socket that is
    in the set when the loop starts is visited. *)
Definition closeOpenConnections (a : Adapter) : Adapter :=
  foldl destroySocket a (elements (openConnections a)).

(** [connected()] returns [this.instance.enabled]. *)
Definition connected (a : Adapter) : JsVal := instance_enabled a.

Definition close (a : Adapter) : CloseResult * Adapter :=
  let a1 := closeOpenConnections a in
  match httpServer a1 with
  | None => (ReturnsUndefined, a1)
  | Some srv =>
      if truthy (connected a1) then
        match serverClose srv with
        | (Return err, srv') =>
            (if truthy err then Rejects err else Resolves (VStr ""),
             mkAdapter (openConnections a1) (destroyed a1) (Some srv')
               (instance_enabled a1))
        | (Throw e, srv') =>
            (Rejects e,
             mkAdapter (openConnections a1) (destroyed a1) (Some srv')
               (instance_enabled a1))
        end
      else (Resolves (VStr ""), a1)
  end.

(** [close()] settled without an error. *)
Definition close_ok (r : CloseResult) : bool :=
  match r with Rejects _ => false | _ => true end.

End Lifecycle.

(** [net.Server.prototype.close(cb)] as Node documents it: a listening
    server stops and the callback gets no error; a server that is not
    listening passes [ERR_SERVER_NOT_RUNNING] to the callback. *)
Definition ERR_SERVER_NOT_RUNNING : JsVal :=
  VObj [("code", VStr "ERR_SERVER_NOT_RUNNING"); ("message", VStr "Server is not running.")].

Definition nodeServerClose (srv : HttpServer) : Outcome JsVal * HttpServer :=
  if listening srv then (Return VUndefined, mkServer false)
  else (Return ERR_SERVER_NOT_RUNNING, srv).

(** An Express application object: [enabled] is its settings-query
    method, a function. *)
Definition express_enabled : JsVal := VHost "app.enabled".

(** A registration method given a path that Express compiles: the
    closure is added to the routes. *)
Definition addsRoute : Member := Method (fun _ => Return true).

(** [app.enabled(setting)]: called with a path and a closure it returns
    a boolean and adds no route. *)
Definition queriesSetting : Member := Method (fun _ => Return false).

(** The registration methods of an Express application that controller
    routes use, taken at paths that Express compiles, its settings-query
    method, and two of its data properties. *)
Definition expressInstance : gmap string Member :=
  list_to_map
    [("get", addsRoute); ("post", addsRoute); ("put", addsRoute);
     ("delete", addsRoute); ("patch", addsRoute); ("options", addsRoute);
     ("head", addsRoute); ("all", addsRoute); ("use", addsRoute);
     ("enabled", queriesSetting);
     ("mountpath", Data (VStr "/")); ("locals", Data (VObj []))].

(** ** More JavaScript string operations *)

Module JsString.

(** [s.startsWith(p)] *)
Fixpoint startsWith (p s : string) : bool :=
  match p with
  | EmptyString => true
  | String c p' =>
      match s with
      | String d s' => Ascii.eqb c d && startsWith p' s'
      | EmptyString => false
      end
  end.

(** [hay.indexOf(needle) !== -1] *)
Fixpoint includes (needle hay : string) : bool :=
  startsWith needle hay
  || match hay with
     | String _ rest => includes needle rest
     | EmptyString => false
     end.

(** No colon occurs in the string. *)
Fixpoint no_colon (s : string) : bool :=
  match s with
  | EmptyString => true
  | String c rest => negb (Ascii.eqb c ":"%char) && no_colon rest
  end.

Definition is_digit (c : ascii) : bool :=
  let n := Ascii.nat_of_ascii c in ((48 <=? n) && (n <=? 57))%nat.

Definition digit_value (c : ascii) : nat := (Ascii.nat_of_ascii c - 48)%nat.

(** The white space [parseInt] skips (the ASCII part of it). *)
Definition is_space (c : ascii) : bool :=
  let n := Ascii.nat_of_ascii c in
  ((9 <=? n) && (n <=? 13) || (n =? 32))%nat.

Fixpoint skip_spaces (s : string) : string :=
  match s with
  | String c rest => if is_space c then skip_spaces rest else s
  | EmptyString => EmptyString
  end.

(** The value of the longest prefix of decimal digits, continuing [acc]. *)
Fixpoint digits_value (acc : nat) (s : string) : nat :=
  match s with
  | String c rest =>
      if is_digit c then digits_value (10 * acc + digit_value c) rest else acc
  | EmptyString => acc
  end.

Definition starts_with_digit (s : string) : bool :=
  match s with
  | String c _ => is_digit c
  | EmptyString => false
  end.

(** [parseInt(s, 10)]: leading white space, an optional sign, then the
    longest run of digits; [None] is [NaN]. *)
Definition parseInt10 (s : string) : option Z :=
  let s1 := skip_spaces s in
  let signed :=
    match s1 with
    | String c rest =>
        if Ascii.eqb c "-"%char then ((-1)%Z, rest)
        else if Ascii.eqb c "+"%char then (1%Z, rest)
        else (1%Z, s1)
    | EmptyString => (1%Z, s1)
    end in
  if starts_with_digit (snd signed)
  then Some (fst signed * Z.of_nat (digits_value 0 (snd signed)))%Z
  else None.

(** The decimal numeral of a natural number. *)
Definition decimal (n : nat) : string :=
  DecimalString.NilEmpty.string_of_uint (Nat.to_uint n).

End JsString.

(** ** Binding the listening address: [listen] *)

(** A settled promise. *)
Inductive Settled : Type :=
| Fulfilled (v : JsVal)
| Rejected (e : JsVal).

(** [const [host, port] = bind.split(':')] and the arguments handed to
    [httpServer.listen]: [parseInt(port, 10)] and [host]. A missing port
    is [undefined], which [parseInt] reads as the text "undefined". *)
Definition listenArgs (bind : string) : option Z * string :=
  match split ":"%char bind with
  | [] => (JsString.parseInt10 (Resolver.key_of None), "")
  | [host] => (JsString.parseInt10 (Resolver.key_of None), host)
  | host :: port :: _ => (JsString.parseInt10 (Resolver.key_of (Some port)), host)
  end.

Section ListenModel.

(** [httpServer.listen(port, host, cb)] of the transport: the value passed
    to the callback, or an exception thrown by the call. *)
Variable serverListen : HttpServer -> option Z -> string -> Outcome JsVal * HttpServer.

Definition listen (bind : string) (a : Adapter) : Settled * Adapter :=
  match httpServer a with
  | None =>
      (Rejected (TypeError "Cannot read properties of undefined (reading 'listen')"), a)
  | Some srv =>
      match serverListen srv (fst (listenArgs bind)) (snd (listenArgs bind)) with
      | (Return err, srv') =>
          (if truthy err then Rejected err else Fulfilled VUndefined,
           mkAdapter (openConnections a) (destroyed a) (Some srv') (instance_enabled a))
      | (Throw e, srv') =>
          (Rejected e,
           mkAdapter (openConnections a) (destroyed a) (Some srv') (instance_enabled a))
      end
  end.

End ListenModel.

(** ** Connection events *)

(** What the transport reports about its sockets. *)
Inductive SocketEvent : Type :=
| Connected (socket : nat)
| Closed (socket : nat).

Definition socket_of (ev : SocketEvent) : nat :=
  match ev with Connected s | Closed s => s end.

(** The listeners installed by [trackOpenConnections], run on a sequence
    of events. *)
Definition onSocketEvent (a : Adapter) (ev : SocketEvent) : Adapter :=
  match ev with
  | Connected s => onConnection s a
  | Closed s => onSocketClose s a
  end.

Definition trackOpenConnections (evs : list SocketEvent) (a : Adapter) : Adapter :=
  foldl onSocketEvent a evs.

(** The socket is open after the events: the last event about it says so,
    or nothing was reported about it and it was open before. *)
Fixpoint open_after (evs : list SocketEvent) (initially : bool) (s : nat) : bool :=
  match evs with
  | [] => initially
  | Connected s' :: rest => open_after rest (if Nat.eqb s s' then true else initially) s
  | Closed s' :: rest => open_after rest (if Nat.eqb s s' then false else initially) s
  end.

(** ** Global middlewares: [setMiddleware] *)

Module Middleware.

(** A value of the [headers] configuration object. *)
Inductive HeaderConfig : Type :=
| HString (value : string)
| HArray (values : list string)
| HOther (value : JsVal).

(** The configuration the middlewares read: [Config.get('headers')] and
    [Config.get('server.removePolicyHeaders', false)]. *)
Record Settings : Type := mkSettings {
  customHeaders : option (list (string * HeaderConfig));
  removePolicyHeaders : bool
}.

(** Response headers, keyed by lower-cased name as Node keeps them.
    [res.setHeader] throws on a name or a value it does not accept, which
    ends the middleware before [next()] is called; the middleware is
    followed here along the runs in which every call is accepted, the ones
    that reach [next()]. *)
Definition setHeader (name : string) (value : JsVal) (hs : gmap string JsVal)
  : gmap string JsVal :=
  <[toLowerCase name := value]> hs.

Definition removeHeader (name : string) (hs : gmap string JsVal) : gmap string JsVal :=
  delete (toLowerCase name) hs.

(** [value.indexOf('style-src') == -1 ? `${value} 'nonce-${nonce}'` : value] *)
Definition withNonce (nonce value : string) : string :=
  if JsString.includes "style-src" value then value
  else value +:+ " 'nonce-" +:+ nonce +:+ "'".

(** The value given to [res.setHeader] for one configured header. *)
Definition headerValue (nonce name : string) (cfg : HeaderConfig) : JsVal :=
  match cfg with
  | HArray values =>
      VStr (String.concat "; "
              (map (fun value =>
                      if String.eqb name "Content-Security-Policy"
                      then withNonce nonce value else value) values))
  | HString value =>
      VStr (if String.eqb name "Content-Security-Policy"
            then withNonce nonce value else value)
  | HOther value => value
  end.

(** [for (const headerName in customHeaders) { ...; res.setHeader(...) }] *)
Definition applyCustomHeaders (nonce : string) (cfg : list (string * HeaderConfig))
  (hs : gmap string JsVal) : gmap string JsVal :=
  foldl (fun acc entry => setHeader (fst entry) (headerValue nonce (fst entry) (snd entry)) acc)
        hs cfg.

(** The headers set on [GET] requests. *)
Definition policyHeaders : list (string * string) :=
  [("Strict-Transport-Security", "max-age=15552000; includeSubDomains");
   ("X-Content-Type-Options", "nosniff");
   ("X-Frame-Options", "SAMEORIGIN");
   ("X-XSS-Protection", "0")].

(** The headers removed on [POST], [PUT] and [DELETE] requests. *)
Definition strippedHeaders : list string :=
  ["X-DNS-Prefetch-Control"; "X-Download-Options";
   "X-Permitted-Cross-Domain-Policies"; "Strict-Transport-Security";
   "Content-Security-Policy"; "Cross-Origin-Opener-Policy";
   "Cross-Origin-Resource-Policy"; "Origin-Agent-Cluster"; "Referrer-Policy"].

Definition setPolicyHeaders (hs : gmap string JsVal) : gmap string JsVal :=
  foldl (fun acc entry => setHeader (fst entry) (VStr (snd entry)) acc) hs policyHeaders.

Definition stripHeaders (hs : gmap string JsVal) : gmap string JsVal :=
  foldl (fun acc name => removeHeader name acc) hs strippedHeaders.

(** [['POST', 'PUT', 'DELETE'].includes(req.method)] *)
Definition is_write_method (m : string) : bool :=
  String.eqb m "POST" || String.eqb m "PUT" || String.eqb m "DELETE".

(** What the first middleware leaves behind before it calls [next()]. *)
Record Context : Type := mkContext {
  ctx_requestId : string;          (* req.requestId *)
  ctx_nonce : string;              (* res.locals.nonce *)
  ctx_headers : gmap string JsVal  (* the response headers *)
}.

(** The first middleware. [uuid1] and [uuid2] are the two values
    [uuidv4()] returns. *)
Definition requestContext (cfg : Settings) (uuid1 uuid2 : string) (reqMethod : string)
  (hs : gmap string JsVal) : Context :=
  let nonce := String.substring 0 8 uuid2 in
  let hs1 := applyCustomHeaders nonce (default [] (customHeaders cfg)) hs in
  let hs2 :=
    if String.eqb reqMethod "GET"
    then (if negb (removePolicyHeaders cfg) then setPolicyHeaders hs1 else hs1)
    else hs1 in
  let hs3 :=
    if is_write_method reqMethod
    then (if negb (removePolicyHeaders cfg) then stripHeaders hs2 else hs2)
    else hs2 in
  mkContext uuid1 nonce hs3.

(** The last configured entry for a header name, names compared without
    case as [setHeader] stores them. *)
Fixpoint lastConfigured (name : string) (cfg : list (string * HeaderConfig))
  : option (string * HeaderConfig) :=
  match cfg with
  | [] => None
  | entry :: rest =>
      match lastConfigured name rest with
      | Some found => Some found
      | None =>
          if String.eqb (toLowerCase (fst entry)) (toLowerCase name)
          then Some entry else None
      end
  end.

(** What the second middleware does with the request. *)
Inductive PageAction : Type :=
| PassOn                      (* next() *)
| Render (file : string)      (* res.render(file, ...) *)
| NotFound.                   (* res.status(404).send('Page not found') *)

Section StaticPages.

(** [path.join] and [fs.existsSync] of the platform, and
    [process.cwd()]. *)
Variable pathJoin : list string -> string.
Variable existsSync : string -> bool.
Variable cwd : string.

Definition publicDir : string := pathJoin [cwd; "public/views"].

(** [req.path === '/' ? 'index' : req.path.substring(1)] *)
Definition requestPath (reqPath : string) : string :=
  if String.eqb reqPath "/" then "index"
  else match reqPath with
       | String _ rest => rest
       | EmptyString => EmptyString
       end.

Definition possiblePaths (reqPath : string) : list string :=
  [pathJoin [publicDir; requestPath reqPath +:+ ".html"];
   pathJoin [publicDir; requestPath reqPath; "index.html"];
   pathJoin [publicDir; requestPath reqPath];
   pathJoin [publicDir; requestPath reqPath; "index.html"]].

(** The [for ... of] loop: the first existing candidate is rendered. *)
Fixpoint firstExisting (candidates : list string) : option string :=
  match candidates with
  | [] => None
  | file :: rest => if existsSync file then Some file else firstExisting rest
  end.

(** The second middleware: opens the "Request Process" span, then passes
    the request on, renders a page or answers 404. *)
Definition staticPages (rid reqPath : string) (now : Z)
  (tele : gmap string (list Telemetry.Span))
  : PageAction * gmap string (list Telemetry.Span) :=
  let tele1 := Telemetry.start "Request Process" rid now tele in
  if negb (JsString.includes ".html" reqPath) && negb (String.eqb reqPath "/")
  then (PassOn, tele1)
  else match firstExisting (possiblePaths reqPath) with
       | Some file => (Render file, tele1)
       | None => (NotFound, tele1)
       end.

End StaticPages.

End Middleware.

(** ** More about traces and route tables *)

(** The controller method returned a value the adapter answers with. *)
Definition is_rendered_result (isJson : JsVal -> bool) (ev : Event) : bool :=
  match ev with
  | EvHandler _ _ (Return v) => isJson v || truthy v
  | _ => false
  end.

(** The controller method threw. *)
Definition is_failed_call (ev : Event) : bool :=
  match ev with
  | EvHandler _ _ (Throw _) => true
  | _ => false
  end.

(** The position of the interceptor an event is about. *)
Definition interceptor_index (ev : Event) : option nat :=
  match ev with
  | EvInterceptor k _ => Some k
  | _ => None
  end.


Definition middleware_index (ev : Event) : option nat :=
  match ev with
  | EvMiddleware k => Some k
  | _ => None
  end.

(** [this.instance[name]] is a callable member. *)
Definition is_method (inst : gmap string Member) (name : string) : bool :=
  match inst !! name with
  | Some (Method _) => true
  | _ => false
  end.

(** The call [this.instance[name](path, closure)] does not throw, or
    there is no callable member of that name to call. *)
Definition call_returns (inst : gmap string Member) (name path : string) : bool :=
  match inst !! name with
  | Some (Method call) =>
      match call path with
      | Return _ => true
      | Throw _ => false
      end
  | _ => true
  end.

(** The call [this.instance[name](path, closure)] returns, having added
    the closure to the routes of the server. *)
Definition adds_route (inst : gmap string Member) (name path : string) : bool :=
  match inst !! name with
  | Some (Method call) =>
      match call path with
      | Return added => added
      | Throw _ => false
      end
  | _ => false
  end.

(** The method and path of a route table entry. *)
Definition reg_key {U : Type} (r : Registration U) : string * string :=
  (reg_method r, reg_path r).

(** The entry a route of a controller is registered under. *)
Definition route_key {U : Type} (pfx : string) (r : RouteDescriptor U) : string * string :=
  (toLowerCase (method r), fullPath pfx (path r)).

(** ** Sample data used in the examples *)

(** The request of the round-trip scenario: [GET /items/42?q=foo]. *)
Definition sampleRequest : Request :=
  mkRequest "GET" "/items/:id" "req-1" VUndefined
    [("id", VStr "42")] [("q", VStr "foo")] [("host", VStr "localhost")]
    VUndefined VUndefined (VStr "127.0.0.1") VUndefined.

(** The same request with [?debug=1]. *)
Definition debugRequest : Request :=
  mkRequest "GET" "/items/:id" "req-1" VUndefined
    [("id", VStr "42")] [("debug", VStr "1")] [("host", VStr "localhost")]
    VUndefined VUndefined (VStr "127.0.0.1") VUndefined.

(** A controller with one method [list], which returns the dependency it
    was constructed with. *)
Definition sampleController (deps : list JsVal) : ControllerInstance unit :=
  fun name =>
    if String.eqb name "list"
    then Some (fun _ h => (Return (VObj [("service", nth 0 deps VNull)]), h))
    else None.

Definition sampleClass : ControllerClass unit :=
  mkClass (Some ["TaskService"]) (fun deps => Return (sampleController deps)).

Definition listRoute : RouteDescriptor unit :=
  mkRoute "GET" (Some "list") "list" None None.

Definition wsRoute : RouteDescriptor unit :=
  mkRoute "WS" (Some "socket") "list" None None.

Definition sampleMeta : ControllerMeta unit :=
  mkMeta "tasks" [wsRoute; listRoute].

(** Modelled from the spec: [isJson] of the core package's abstract
    adapter, which is not part of this repository; a result is structured
    when it is not a primitive. *)
Definition isStructured (v : JsVal) : bool :=
  match v with
  | VObj _ | VArr _ => true
  | _ => false
  end.

(** A controller whose method [list] counts its invocations in the host
    state and returns an object. *)
Definition countingController : ControllerInstance nat :=
  fun name =>
    if String.eqb name "list"
    then Some (fun _ h =>
                 (Return (VObj [("ok", VBool true)]),
                  mkHost (S (user h)) (now h + 5) (tele h)))
    else None.

(** A controller whose method [list] throws [Error("boom")]. *)
Definition failingController : ControllerInstance nat :=
  fun name =>
    if String.eqb name "list"
    then Some (fun _ h => (Throw (Error "boom"), mkHost (user h) (now h + 7) (tele h)))
    else None.

Definition countRoute : RouteDescriptor nat :=
  mkRoute "GET" (Some ":id") "list" (Some [mkParam "param:id" 0]) None.

(** An interceptor that answers the request itself and returns [true]. *)
Definition blockingInterceptor : Interceptor nat :=
  fun _ _ _ h => (Return (VBool true), h).

Definition blockingApp : AppModule nat := mkAppModule [blockingInterceptor] [].

Definition plainApp : AppModule nat := mkAppModule [] [].

(** The host state when the dispatch closure is entered: the global
    middleware has opened the "Request Process" span of the request. *)
Definition hostAtEntry : Host nat :=
  mkHost 0%nat 1000 (Telemetry.start "Request Process" "req-1" 1000 ∅).

(** An adapter on an Express application whose server is listening, with
    two tracked connections. *)
Definition runningAdapter : Adapter :=
  mkAdapter {[1%nat; 2%nat]} ∅ (Some (mkServer true)) express_enabled.

(** * Properties *)

(** ** Arrays with holes *)

Lemma array_set_lookup (a : JsArray) (i : nat) (v : JsVal) :
  array_set a i v !! i = Some (Some v).
Proof.
  unfold array_set. destruct (Nat.ltb_spec i (length a)) as [Hlt | Hge].
  - by apply list_lookup_insert_eq.
  - rewrite lookup_app_r by lia.
    rewrite lookup_app_r by (rewrite length_replicate; lia).
    rewrite length_replicate.
    by replace (i - length a - (i - length a))%nat with 0%nat by lia.
Qed.

Lemma array_set_lookup_ne (a : JsArray) (i j : nat) (v : JsVal) (slot : option JsVal) :
  i ≠ j → a !! i = Some slot → array_set a j v !! i = Some slot.
Proof.
  intros Hne Hi. unfold array_set.
  destruct (Nat.ltb_spec j (length a)) as [Hlt | Hge].
  - by rewrite list_lookup_insert_ne.
  - apply lookup_lt_Some in Hi as Hlen. by rewrite lookup_app_l.
Qed.

Lemma array_get_set (a : JsArray) (i : nat) (v : JsVal) :
  array_get (array_set a i v) i = v.
Proof. unfold array_get. by rewrite array_set_lookup. Qed.

(** ** Parameter resolver *)

Import Resolver.

Lemma placeAll_app (req : Request) (ps qs : list ParamDescriptor) (a : JsArray) :
  placeAll req a (ps ++ qs) =
  match placeAll req a ps with
  | Return a' => placeAll req a' qs
  | Throw e => Throw e
  end.
Proof.
  revert a. induction ps as [| p ps IH]; intros a; simpl; [done |].
  destruct (placeParam req a p); [apply IH | done].
Qed.

Lemma placeAll_keeps_slot (req : Request) (ps : list ParamDescriptor) :
  ∀ (a a' : JsArray) (i : nat) (slot : option JsVal),
    placeAll req a ps = Return a' →
    Forall (fun p => index p ≠ i) ps →
    a !! i = Some slot →
    a' !! i = Some slot.
Proof.
  induction ps as [| p ps IH]; intros a a' i slot Hrun Hall Hi; simpl in Hrun.
  - by simplify_eq.
  - inversion Hall as [| ? ? Hp Hps]; subst.
    unfold placeParam in Hrun. destruct (resolveParam req p) as [v | e]; [| done].
    eapply IH; [exact Hrun | exact Hps |].
    apply array_set_lookup_ne; [congruence | done].
Qed.

Lemma unknown_kind_default (req : Request) (p : ParamDescriptor) :
  sourceKind p ∉ knownKinds → resolveParam req p = Return VUndefined.
Proof.
  unfold sourceKind, resolveParam, knownKinds.
  destruct (destructure p) as [kind name]; simpl. intros Hnot.
  repeat match goal with
  | |- context [String.eqb kind ?k] =>
      destruct (String.eqb_spec kind k) as [-> | _];
      [exfalso; apply Hnot; set_solver |]
  end.
  done.
Qed.

(** C5. A descriptor whose source kind is none of the known kinds makes
    the resolver store an explicit [undefined] at the descriptor's index:
    the step does not throw, and the slot holds [undefined] itself (it is
    not a hole). *)
Theorem unknown_kind_resolves_absent (req : Request) (args : JsArray)
    (p : ParamDescriptor) :
  sourceKind p ∉ knownKinds →
  placeParam req args p = Return (array_set args (index p) VUndefined)
  ∧ array_set args (index p) VUndefined !! index p = Some (Some VUndefined)
  ∧ buildRouteArgs req (Some [p]) = Return (array_set [] (index p) VUndefined).
Proof.
  intros Hunknown. pose proof (unknown_kind_default req p Hunknown) as Hres.
  split; [| split].
  - unfold placeParam. by rewrite Hres.
  - apply array_set_lookup.
  - simpl. unfold placeParam. by rewrite Hres.
Qed.

Lemma unknown_kind_resolves_absent_witness :
  (sourceKind (mkParam "cookie:sid" 2) ∉ knownKinds)
  ∧ buildRouteArgs sampleRequest (Some [mkParam "cookie:sid" 2])
    = Return [None; None; Some VUndefined].
Proof.
  assert (H : sourceKind (mkParam "cookie:sid" 2) ∉ knownKinds).
  { vm_compute. intros Hin. repeat (apply elem_of_cons in Hin as [Hin | Hin]; [discriminate |]).
    by apply elem_of_nil in Hin. }
  split; [exact H |].
  exact (proj2 (proj2 (unknown_kind_resolves_absent sampleRequest [] _ H))).
Defined.

(** C6. Values go to the declared positional index, wherever the
    descriptor stands in the declaration list: a descriptor's value is
    found at its index in the result as long as no later descriptor
    declares the same index. On the sample request the descriptors
    [param:id @0] and [query:q @1] give ["42", "foo"], in either
    declaration order. *)
Theorem buildRouteArgs_places_by_index :
  (∀ (req : Request) (before after : list ParamDescriptor) (d : ParamDescriptor)
     (args : JsArray) (v : JsVal),
     buildRouteArgs req (Some (before ++ d :: after)) = Return args →
     resolveParam req d = Return v →
     Forall (fun p => index p ≠ index d) after →
     args !! index d = Some (Some v))
  ∧ buildRouteArgs sampleRequest (Some [mkParam "param:id" 0; mkParam "query:q" 1])
    = Return [Some (VStr "42"); Some (VStr "foo")]
  ∧ buildRouteArgs sampleRequest (Some [mkParam "query:q" 1; mkParam "param:id" 0])
    = Return [Some (VStr "42"); Some (VStr "foo")].
Proof.
  split; [| split; reflexivity].
  intros req before after d args v Hrun Hd Hafter. simpl in Hrun.
  rewrite placeAll_app in Hrun.
  destruct (placeAll req [] before) as [a1 | e]; [| done].
  simpl in Hrun. unfold placeParam in Hrun. rewrite Hd in Hrun.
  eapply placeAll_keeps_slot; [exact Hrun | exact Hafter |].
  apply array_set_lookup.
Qed.

Lemma buildRouteArgs_places_by_index_witness :
  ([Some (VStr "42"); Some (VStr "foo")] : JsArray) !! index (mkParam "param:id" 0)
  = Some (Some (VStr "42")).
Proof.
  apply (proj1 buildRouteArgs_places_by_index sampleRequest
           [mkParam "query:q" 1] [] (mkParam "param:id" 0)
           [Some (VStr "42"); Some (VStr "foo")] (VStr "42")).
  - reflexivity.
  - reflexivity.
  - constructor.
Defined.

(** ** Route paths *)

Module PathFacts.
Import Path.

Lemma append_empty_r (s : string) : s +:+ "" = s.
Proof. induction s as [| c s IH]; [done |]. change (String c (s +:+ "") = String c s). by f_equal. Qed.

Lemma starts_with_slash_app (s t : string) :
  starts_with_slash (s +:+ t) =
  match s with EmptyString => starts_with_slash t | _ => starts_with_slash s end.
Proof. by destruct s. Qed.

Lemma ends_with_slash_app (s t : string) :
  ends_with_slash (s +:+ t) =
  match t with EmptyString => ends_with_slash s | _ => ends_with_slash t end.
Proof.
  destruct t as [| d t]; [by rewrite append_empty_r |].
  induction s as [| c s IH]; [done |].
  simpl. rewrite IH. by destruct s.
Qed.

Lemma has_duplicate_separator_app (s t : string) :
  has_duplicate_separator (s +:+ t) =
  has_duplicate_separator s || has_duplicate_separator t
  || (ends_with_slash s && starts_with_slash t).
Proof.
  induction s as [| c s IH]; simpl.
  - by rewrite orb_false_r.
  - rewrite IH, starts_with_slash_app. destruct s as [| c' s']; simpl.
    + destruct (is_slash c), (starts_with_slash t), (has_duplicate_separator t); done.
    + destruct (is_slash c), (is_slash c'), (has_duplicate_separator (String c' s')),
        (has_duplicate_separator t), (ends_with_slash (String c' s')),
        (starts_with_slash t); done.
Qed.

Lemma leading_slashes_none (s : string) :
  starts_with_slash s = false → leading_slashes s = 0%nat.
Proof. destruct s as [| c s]; simpl; [done |]. by intros ->. Qed.

(** A path made of one slash and a rest that does not start with a slash
    and has no duplicate separator is normalized. *)
Lemma normalized_slash_cons (rest : string) :
  starts_with_slash rest = false →
  has_duplicate_separator rest = false →
  normalized (String "/" rest) = true.
Proof.
  intros Hs Hd. unfold normalized. simpl.
  by rewrite (leading_slashes_none _ Hs), Hs, Hd.
Qed.

End PathFacts.

(** C7, as stated, fails: a prefix and a sub-path that carry their own
    leading slash are concatenated as they are, and the registered path
    has duplicate separators. *)
Lemma fullPath_not_normalized :
  fullPath "/users" (Some "/list") = "//users//list"
  ∧ Path.normalized (fullPath "/users" (Some "/list")) = false.
Proof. split; reflexivity. Qed.

(** C7, amended. The registered path is a slash, the prefix and, for a
    non-empty sub-path, a slash and the sub-path, with no normalization.
    It has exactly one leading slash and no duplicate separator when the
    prefix has no leading slash and no duplicate separator and either the
    sub-path is empty or absent, or the prefix is non-empty and does not
    end with a slash and the sub-path has no leading slash and no
    duplicate separator. *)
Theorem fullPath_normalized_for_clean_segments (pfx : string) (sub : option string) :
  Path.starts_with_slash pfx = false →
  Path.has_duplicate_separator pfx = false →
  match sub with
  | None | Some EmptyString => True
  | Some p =>
      pfx ≠ "" ∧ Path.ends_with_slash pfx = false
      ∧ Path.starts_with_slash p = false ∧ Path.has_duplicate_separator p = false
  end →
  fullPath pfx sub
  = "/" +:+ pfx +:+ match sub with
                    | None | Some EmptyString => ""
                    | Some p => "/" +:+ p
                    end
  ∧ Path.normalized (fullPath pfx sub) = true.
Proof.
  intros Hstart Hdup Hsub. split.
  - unfold fullPath. by destruct sub as [[| c p] |].
  - unfold fullPath. destruct sub as [[| c p] |]; simpl.
    + rewrite PathFacts.append_empty_r. by apply PathFacts.normalized_slash_cons.
    + destruct Hsub as (Hne & Hend & Hps & Hpd).
      apply PathFacts.normalized_slash_cons.
      * rewrite PathFacts.starts_with_slash_app. by destruct pfx.
      * rewrite PathFacts.has_duplicate_separator_app, Hdup, Hend. simpl.
        simpl in Hps, Hpd. rewrite Hps in *. simpl in *.
        by rewrite Hpd.
    + rewrite PathFacts.append_empty_r. by apply PathFacts.normalized_slash_cons.
Qed.

Lemma fullPath_normalized_for_clean_segments_witness :
  fullPath "tasks" (Some ":id") = "/tasks/:id"
  ∧ Path.normalized (fullPath "tasks" (Some ":id")) = true.
Proof.
  apply (fullPath_normalized_for_clean_segments "tasks" (Some ":id")).
  - reflexivity.
  - reflexivity.
  - simpl. repeat split; done.
Defined.

(** ** Controller binder *)

Section BinderFacts.
Context {U : Type}.

Lemma registerRoutes_app (inst : gmap string Member) (ci : ControllerInstance U)
    (pfx : string) (rs1 rs2 : list (RouteDescriptor U)) (table : list (Registration U)) :
  registerRoutes inst ci pfx table (rs1 ++ rs2) =
  match registerRoutes inst ci pfx table rs1 with
  | Return table' => registerRoutes inst ci pfx table' rs2
  | Throw e => Throw e
  end.
Proof.
  revert table. induction rs1 as [| r rs1 IH]; intros table; simpl; [done |].
  destruct (registerRoute inst ci pfx table r); [apply IH | done].
Qed.

Lemma registerRoute_skips (inst : gmap string Member) (ci : ControllerInstance U)
    (pfx : string) (table : list (Registration U)) (r : RouteDescriptor U) :
  member_truthy inst (toLowerCase (method r)) = false →
  registerRoute inst ci pfx table r = Return table.
Proof. intros H. unfold registerRoute. by rewrite H. Qed.

Lemma resolveDependencies_lookup (providers : gmap string JsVal)
    (types : list string) (k : nat) (name : string) :
  types !! k = Some name →
  resolveDependencies providers (Some types) !! k
  = Some (default VUndefined (providers !! name)).
Proof.
  intros Hk. unfold resolveDependencies. simpl.
  change (map ?f ?l) with (f <$> l). by rewrite list_lookup_fmap, Hk.
Qed.

End BinderFacts.

(** C10, as stated, fails: [locals] is no registration method of the
    server object, yet a route whose method lower-cases to it is not
    skipped. The guard lets the truthy member through, calling it throws
    a [TypeError], and the route declared after it, which binds when it
    is alone, is never registered. *)
Lemma non_function_member_is_not_skipped :
  is_method expressInstance (toLowerCase "LOCALS") = false
  ∧ registerRoute expressInstance (sampleController []) "tasks" []
      (mkRoute "LOCALS" (Some "socket") "list" None None)
    = Throw (TypeError "this.instance[method] is not a function")
  ∧ registerRoutes expressInstance (sampleController []) "tasks" []
      [mkRoute "LOCALS" (Some "socket") "list" None None; listRoute]
    = Throw (TypeError "this.instance[method] is not a function")
  ∧ registerRoutes expressInstance (sampleController []) "tasks" [] [listRoute]
    = Return [mkRegistration "get" "/tasks/list" (sampleController []) listRoute].
Proof. split_and!; reflexivity. Qed.

(** C10, amended. A route whose lower-cased method names no member of
    the server object, or a falsy one, is skipped: its registration step
    returns the route table unchanged without throwing, and binding the
    whole route list gives exactly what binding the list without that
    route gives. *)
Theorem unsupported_method_is_skipped {U : Type} (inst : gmap string Member)
    (ci : ControllerInstance U) (pfx : string) (table : list (Registration U))
    (before after : list (RouteDescriptor U)) (r : RouteDescriptor U) :
  member_truthy inst (toLowerCase (method r)) = false →
  registerRoute inst ci pfx table r = Return table
  ∧ registerRoutes inst ci pfx table (before ++ r :: after)
    = registerRoutes inst ci pfx table (before ++ after).
Proof.
  intros Hskip. split; [by apply registerRoute_skips |].
  rewrite !registerRoutes_app.
  destruct (registerRoutes inst ci pfx table before) as [t1 | e]; [| done].
  simpl. by rewrite registerRoute_skips.
Qed.

Lemma unsupported_method_is_skipped_witness :
  registerRoute expressInstance (sampleController []) "tasks" [] wsRoute = Return []
  ∧ registerRoutes expressInstance (sampleController []) "tasks" [] ([] ++ wsRoute :: [listRoute])
    = registerRoutes expressInstance (sampleController []) "tasks" [] ([] ++ [listRoute]).
Proof.
  apply (unsupported_method_is_skipped expressInstance (sampleController []) "tasks" []
           [] [listRoute] wsRoute).
  vm_compute. reflexivity.
Defined.

(** C8, as stated, fails: with an empty provider map, a controller whose
    constructor declares the dependency [TaskService] is constructed all
    the same, with [undefined] in place of the dependency, and its route
    is registered; binding does not fail. *)
Lemma missing_dependency_does_not_fail :
  (∅ : gmap string JsVal) !! "TaskService" = None
  ∧ resolveDependencies (∅ : gmap string JsVal) (paramtypes sampleClass) = [VUndefined]
  ∧ ¬ binding_fails (registerControllers ∅ expressInstance [(sampleClass, sampleMeta)])
  ∧ (∃ table, registerControllers ∅ expressInstance [(sampleClass, sampleMeta)] = Return table
              ∧ map reg_path table = ["/tasks/list"]).
Proof.
  split; [done |]. split; [reflexivity |]. split.
  - vm_compute. tauto.
  - eexists. split; [vm_compute; reflexivity | reflexivity].
Qed.

(** C8, amended. A dependency type that is absent from the provider map
    is passed to the constructor as [undefined], at the position of the
    declared parameter; binding raises no error for it: when the
    constructor returns an instance, the controller's routes are
    registered with that instance. *)
Theorem missing_dependency_is_undefined {U : Type} (providers : gmap string JsVal)
    (inst : gmap string Member) (table : list (Registration U))
    (cls : ControllerClass U) (meta : ControllerMeta U)
    (types : list string) (k : nat) (name : string) :
  paramtypes cls = Some types →
  types !! k = Some name →
  providers !! name = None →
  resolveDependencies providers (paramtypes cls) !! k = Some VUndefined
  ∧ ∀ ci, construct cls (resolveDependencies providers (paramtypes cls)) = Return ci →
          bindController providers inst table (cls, meta)
          = registerRoutes inst ci (prefix meta) table (routes meta).
Proof.
  intros Htypes Hk Hmissing. split.
  - rewrite Htypes, (resolveDependencies_lookup providers types k name Hk).
    by rewrite Hmissing.
  - intros ci Hci. unfold bindController. simpl. by rewrite Hci.
Qed.

Lemma missing_dependency_is_undefined_witness :
  resolveDependencies (∅ : gmap string JsVal) (paramtypes sampleClass) !! 0%nat
  = Some VUndefined
  ∧ ∀ ci, construct sampleClass (resolveDependencies ∅ (paramtypes sampleClass)) = Return ci →
          bindController ∅ expressInstance [] (sampleClass, sampleMeta)
          = registerRoutes expressInstance ci (prefix sampleMeta) [] (routes sampleMeta).
Proof.
  apply (missing_dependency_is_undefined ∅ expressInstance [] sampleClass sampleMeta
           ["TaskService"] 0 "TaskService").
  - reflexivity.
  - reflexivity.
  - reflexivity.
Defined.

(** ** Server lifecycle *)

Section LifecycleFacts.
Variable serverClose : HttpServer -> Outcome JsVal * HttpServer.

Lemma destroy_all_spec (l : list nat) :
  ∀ a : Adapter,
    openConnections (foldl destroySocket a l) = openConnections a ∖ list_to_set l
    ∧ destroyed (foldl destroySocket a l) = destroyed a ∪ list_to_set l
    ∧ httpServer (foldl destroySocket a l) = httpServer a
    ∧ instance_enabled (foldl destroySocket a l) = instance_enabled a.
Proof.
  induction l as [| s l IH]; intros a; simpl.
  - repeat split; set_solver.
  - destruct (IH (destroySocket a s)) as (Ho & Hd & Hs & He).
    rewrite Ho, Hd, Hs, He. simpl. repeat split; set_solver.
Qed.

(** [closeOpenConnections] destroys every tracked socket and leaves the
    tracked set empty. *)
Lemma closeOpenConnections_spec (a : Adapter) :
  openConnections (closeOpenConnections a) = ∅
  ∧ destroyed (closeOpenConnections a) = destroyed a ∪ openConnections a
  ∧ httpServer (closeOpenConnections a) = httpServer a
  ∧ instance_enabled (closeOpenConnections a) = instance_enabled a.
Proof.
  unfold closeOpenConnections.
  destruct (destroy_all_spec (elements (openConnections a)) a) as (Ho & Hd & Hs & He).
  rewrite Ho, Hd, Hs, He, list_to_set_elements_L. repeat split; set_solver.
Qed.

(** Whatever the transport answers, [close] has destroyed every tracked
    connection and emptied the set. *)
Lemma close_destroys_tracked_connections (a : Adapter) :
  openConnections (snd (close serverClose a)) = ∅
  ∧ openConnections a ⊆ destroyed (snd (close serverClose a)).
Proof.
  unfold close.
  destruct (closeOpenConnections_spec a) as (Ho & Hd & Hs & He).
  destruct (httpServer (closeOpenConnections a)) as [srv |]; simpl.
  - destruct (truthy (connected (closeOpenConnections a))); simpl.
    + destruct (serverClose srv) as [[err | e] srv']; simpl;
        (split; [done | rewrite Hd; set_solver]).
    + split; [done | rewrite Hd; set_solver].
  - split; [done | rewrite Hd; set_solver].
Qed.

(** An adapter whose server was never created: [close] returns
    [undefined] at once. *)
Lemma close_without_server (a : Adapter) :
  httpServer a = None → fst (close serverClose a) = ReturnsUndefined.
Proof.
  intros Hnone. unfold close.
  destruct (closeOpenConnections_spec a) as (_ & _ & Hs & _).
  by rewrite Hs, Hnone.
Qed.

(** As long as [this.instance.enabled] is truthy, [close] asks the
    transport to close, whether or not it is listening. *)
Lemma close_always_asks_transport (a : Adapter) (srv : HttpServer) :
  httpServer a = Some srv →
  truthy (instance_enabled a) = true →
  fst (close serverClose a) =
  match fst (serverClose srv) with
  | Return err => if truthy err then Rejects err else Resolves (VStr "")
  | Throw e => Rejects e
  end.
Proof.
  intros Hsrv Hen. unfold close, connected.
  destruct (closeOpenConnections_spec a) as (_ & _ & Hs & He).
  rewrite Hs, Hsrv, He, Hen. by destruct (serverClose srv) as [[err | e] srv'].
Qed.

End LifecycleFacts.

(** C9. On an Express application with a listening server and two open
    connections, the first [close()] destroys both connections, empties
    the tracked set and resolves; the second [close()] asks the stopped
    server to close again and rejects with [ERR_SERVER_NOT_RUNNING]. *)
Theorem second_close_rejects :
  let first := close nodeServerClose runningAdapter in
  let second := close nodeServerClose (snd first) in
  fst first = Resolves (VStr "")
  ∧ openConnections (snd first) = ∅
  ∧ destroyed (snd first) = {[1%nat; 2%nat]}
  ∧ httpServer (snd first) = Some (mkServer false)
  ∧ fst second = Rejects ERR_SERVER_NOT_RUNNING
  ∧ close_ok (fst second) = false.
Proof.
  assert (Hfirst : fst (close nodeServerClose runningAdapter) = Resolves (VStr "")).
  { by rewrite (close_always_asks_transport nodeServerClose runningAdapter (mkServer true)). }
  assert (Hsrv : httpServer (snd (close nodeServerClose runningAdapter)) = Some (mkServer false)).
  { unfold close, connected.
    destruct (closeOpenConnections_spec runningAdapter) as (_ & _ & Hs & He).
    rewrite Hs, He. reflexivity. }
  assert (Hen : instance_enabled (snd (close nodeServerClose runningAdapter)) = express_enabled).
  { unfold close, connected.
    destruct (closeOpenConnections_spec runningAdapter) as (_ & _ & Hs & He).
    rewrite Hs, He. simpl. exact He. }
  assert (Hsecond : fst (close nodeServerClose (snd (close nodeServerClose runningAdapter)))
                    = Rejects ERR_SERVER_NOT_RUNNING).
  { rewrite (close_always_asks_transport nodeServerClose _ (mkServer false) Hsrv);
      [reflexivity | by rewrite Hen]. }
  cbv zeta. split_and!.
  - exact Hfirst.
  - apply close_destroys_tracked_connections.
  - unfold close, connected.
    destruct (closeOpenConnections_spec runningAdapter) as (_ & Hd & Hs & He).
    rewrite Hs, He. simpl. rewrite Hd. simpl. set_solver.
  - exact Hsrv.
  - exact Hsecond.
  - by rewrite Hsecond.
Qed.

(** ** Traces *)

Lemma forallb_excludes (p q : Event -> bool) (t : list Event) :
  (∀ ev, p ev = true → q ev = false) →
  forallb p t = true →
  existsb q t = false ∧ List.filter q t = [].
Proof.
  intros Hpq. induction t as [| ev t IH]; simpl; [done |].
  intros [Hev Ht]%andb_prop. destruct (IH Ht) as [He Hf].
  by rewrite (Hpq ev Hev), He, Hf.
Qed.

Lemma responses_app (t1 t2 : list Event) :
  responses (t1 ++ t2) = responses t1 ++ responses t2.
Proof. apply List.filter_app. Qed.

(** ** The dispatch closure *)

Section DispatchFacts.
Context {U : Type}.
Variable isJson : JsVal -> bool.
Variable app : AppModule U.
Variable instance : ControllerInstance U.
Variable route : RouteDescriptor U.

Lemma runInterceptors_trace (req : Request) (ints : list (Interceptor U)) :
  ∀ (k : nat) (h h' : Host U) (r : Outcome bool) (t : list Event),
    runInterceptors instance route k ints req h = (r, h', t) →
    forallb is_interceptor_event t = true
    ∧ existsb is_short_circuit t = match r with Return true => true | _ => false end.
Proof.
  induction ints as [| i rest IH]; intros k h h' r t Hrun; simpl in Hrun.
  - unfold ret in Hrun. by simplify_eq.
  - unfold bind, awaitInterceptor in Hrun.
    destruct (i _ req _ h) as [[v | e] h1].
    + destruct (truthy v) eqn:Hv.
      * unfold ret in Hrun. simplify_eq. simpl. by rewrite Hv.
      * destruct (runInterceptors instance route (S k) rest req h1)
          as [[r2 h2] t2] eqn:Hrest.
        simplify_eq. destruct (IH _ _ _ _ _ Hrest) as [Hall Hex].
        simpl. by rewrite Hv, Hall, Hex.
    + by simplify_eq.
Qed.

Lemma interceptorLoop_trace (req : Request) (h h' : Host U) (r : Outcome bool)
    (t : list Event) :
  interceptorLoop app instance route req h = (r, h', t) →
  forallb is_interceptor_event t = true
  ∧ existsb is_short_circuit t = match r with Return true => true | _ => false end.
Proof.
  unfold interceptorLoop. destruct (0 <? length (httpInterceptors app))%nat.
  - apply runInterceptors_trace.
  - unfold ret. intros. by simplify_eq.
Qed.

Lemma rewritten_same (content : JsVal) : rewritten content content = content.
Proof. by destruct content. Qed.

Lemma runAfterRender_trace (req : Request) (hooks : list (AfterRender U)) :
  ∀ (content : JsVal) (k : nat) (h h' : Host U) (r : Outcome JsVal) (t : list Event),
    runAfterRender instance route k hooks req content h = (r, h', t) →
    forallb is_after_render t = true.
Proof.
  induction hooks as [| a rest IH]; intros content k h h' r t Hrun; simpl in Hrun.
  - unfold ret in Hrun. by simplify_eq.
  - unfold bind, awaitAfterRender in Hrun.
    destruct (a _ req _ content h) as [[[[] | e] h1] after].
    + destruct (runAfterRender instance route (S k) rest req (rewritten content after) h1)
        as [[r2 h2] t2] eqn:Hrest.
      simplify_eq. simpl. eapply IH, Hrest.
    + by simplify_eq.
Qed.

Lemma afterRenderLoop_trace (req : Request) (content : JsVal) (h h' : Host U)
    (r : Outcome JsVal) (t : list Event) :
  afterRenderLoop app instance route req content h = (r, h', t) →
  forallb is_after_render t = true.
Proof.
  unfold afterRenderLoop. destruct (0 <? length (httpAfterRender app))%nat.
  - apply runAfterRender_trace.
  - unfold ret. intros. by simplify_eq.
Qed.

(** What is written after the hooks is what was handed to the first one
    when the hooks only read it, or when none ran. *)
Lemma runAfterRender_content (req : Request) (hooks : list (AfterRender U)) :
  ∀ (content sent : JsVal) (k : nat) (h h' : Host U) (t : list Event),
    runAfterRender instance route k hooks req content h = (Return sent, h', t) →
    Forall observes hooks ∨ existsb is_after_render t = false →
    sent = content.
Proof.
  induction hooks as [| a rest IH]; intros content sent k h h' t Hrun Hcase;
    simpl in Hrun.
  - unfold ret in Hrun. by simplify_eq.
  - unfold bind, awaitAfterRender in Hrun.
    destruct (a _ req _ content h) as [[[[] | e] h1] after] eqn:Ha; [| by simplify_eq].
    destruct (runAfterRender instance route (S k) rest req (rewritten content after) h1)
      as [[r2 h2] t2] eqn:Hrest.
    simplify_eq. destruct Hcase as [Hobs | Hnone]; [| done].
    inversion Hobs as [| ? ? Hfirst Hothers]; subst.
    rewrite (IH _ _ _ _ _ _ Hrest (or_introl Hothers)).
    specialize (Hfirst (toLowerCase (routeKey req)) req (instance (handlerName route))
                  content h).
    rewrite Ha in Hfirst. simpl in Hfirst. subst after. apply rewritten_same.
Qed.

Lemma afterRenderLoop_content (req : Request) (content sent : JsVal) (h h' : Host U)
    (t : list Event) :
  afterRenderLoop app instance route req content h = (Return sent, h', t) →
  Forall observes (httpAfterRender app) ∨ existsb is_after_render t = false →
  sent = content.
Proof.
  unfold afterRenderLoop. destruct (0 <? length (httpAfterRender app))%nat.
  - apply runAfterRender_content.
  - unfold ret. intros ? _. by simplify_eq.
Qed.

Lemma withDebug_status (req : Request) (telemetry : JsVal) (n pt : Z)
    (k : string) (v : JsVal) :
  obj_get (withDebug req telemetry
             [("status", VNum n); ("processingTime", VNum pt); (k, v)]) "status"
  = VNum n.
Proof. unfold withDebug. by destruct (truthy _). Qed.

End DispatchFacts.

Lemma forallb_implies (p q : Event -> bool) (t : list Event) :
  (∀ ev, p ev = true → q ev = true) →
  forallb p t = true → forallb q t = true.
Proof.
  intros Hpq. induction t as [| ev t IH]; simpl; [done |].
  intros [Hev Ht]%andb_prop. by rewrite (Hpq ev Hev), (IH Ht).
Qed.

Lemma after_render_not_interceptor (ev : Event) :
  is_after_render ev = true → is_interceptor_event ev = false.
Proof. by destruct ev. Qed.

Lemma after_render_not_short_circuit (ev : Event) :
  is_after_render ev = true → is_short_circuit ev = false.
Proof. by destruct ev. Qed.

Lemma after_render_not_response (ev : Event) :
  is_after_render ev = true → is_response ev = false.
Proof. by destruct ev. Qed.

Lemma after_render_not_handler (ev : Event) :
  is_after_render ev = true → is_handler_call ev = false.
Proof. by destruct ev. Qed.

Lemma after_render_status_ok (ev : Event) :
  is_after_render ev = true → status_ok ev = true.
Proof. by destruct ev. Qed.

Section HandlerFacts.
Context {U : Type}.
Variable isJson : JsVal -> bool.
Variable app : AppModule U.
Variable instance : ControllerInstance U.
Variable route : RouteDescriptor U.

Lemma afterInterceptors_trace (startTime : Z) (req : Request) (h h1 : Host U)
    (r : Outcome bool) (t : list Event) :
  afterInterceptors isJson app instance route startTime req h = (r, h1, t) →
  existsb is_short_circuit t = false
  ∧ (Forall observes (httpAfterRender app) ∨ existsb is_after_render t = false →
     forallb status_ok t = true)
  ∧ r ≠ Return true
  ∧ match r with
    | Throw _ => responses t = []
    | Return _ =>
        length (responses t) = 1%nat
        ∨ (responses t = [] ∧ existsb (is_silent_result isJson) t = true)
    end.
Proof.
  unfold afterInterceptors, bind, lift, telemetryStart, telemetryEnd, dateNow,
    telemetryGet, emit, ret, invokeHandler.
  destruct (Resolver.buildRouteArgs req (params route)) as [args | e];
    [| intros; by simplify_eq].
  destruct (instance (handlerName route)) as [f |];
    [| simpl; intros; by simplify_eq].
  simpl.
  destruct (f (spread args) _) as [[v | e] h2]; [| intros; by simplify_eq].
  simpl. destruct (isJson v) eqn:Hjson.
  - destruct (afterRenderLoop _ _ _ _ _ _) as [[[sent | e] h3] t3] eqn:Hloop;
      pose proof (afterRenderLoop_trace _ _ _ _ _ _ _ _ _ Hloop) as Hall;
      pose proof (forallb_excludes _ _ _ after_render_not_short_circuit Hall) as [Hsc _];
      pose proof (forallb_excludes _ _ _ after_render_not_response Hall) as [_ Hresp];
      pose proof (forallb_implies _ _ _ after_render_status_ok Hall) as Hst;
      intros; simplify_eq; simpl;
      rewrite ?existsb_app, ?forallb_app, ?responses_app; unfold responses in *;
      rewrite ?Hsc, ?Hresp, ?Hst; simpl.
    + split_and!; [done | | done | by left].
      rewrite orb_false_r. intros Hcase.
      rewrite (afterRenderLoop_content _ _ _ _ _ _ _ _ _ Hloop Hcase).
      by rewrite withDebug_status.
    + done.
  - destruct (truthy v) eqn:Hv.
    + destruct (afterRenderLoop _ _ _ _ _ _) as [[[sent | e] h3] t3] eqn:Hloop;
      pose proof (afterRenderLoop_trace _ _ _ _ _ _ _ _ _ Hloop) as Hall;
      pose proof (forallb_excludes _ _ _ after_render_not_short_circuit Hall) as [Hsc _];
      pose proof (forallb_excludes _ _ _ after_render_not_response Hall) as [_ Hresp];
      pose proof (forallb_implies _ _ _ after_render_status_ok Hall) as Hst;
      intros; simplify_eq; simpl;
      rewrite ?existsb_app, ?forallb_app, ?responses_app; unfold responses in *;
      rewrite ?Hsc, ?Hresp, ?Hst; simpl.
      * split_and!; [done | done | done | by left].
      * done.
    + intros; simplify_eq; simpl. rewrite Hjson, Hv. simpl.
      split_and!; [done | done | done | by right].
Qed.

End HandlerFacts.

Lemma interceptor_event_not_response (ev : Event) :
  is_interceptor_event ev = true → is_response ev = false.
Proof. by destruct ev. Qed.

Lemma interceptor_event_not_handler (ev : Event) :
  is_interceptor_event ev = true → is_handler_call ev = false.
Proof. by destruct ev. Qed.

Lemma interceptor_event_not_after_render (ev : Event) :
  is_interceptor_event ev = true → is_after_render ev = false.
Proof. by destruct ev. Qed.

Lemma interceptor_event_status_ok (ev : Event) :
  is_interceptor_event ev = true → status_ok ev = true.
Proof. by destruct ev. Qed.

Section ClosureFacts.
Context {U : Type}.
Variable isJson : JsVal -> bool.
Variable app : AppModule U.
Variable instance : ControllerInstance U.
Variable route : RouteDescriptor U.

(** When the interceptor loop is left by [return], the last thing that
    happened is an interceptor returning a truthy value. *)
Lemma runInterceptors_break_last (req : Request) (ints : list (Interceptor U)) :
  ∀ (k : nat) (h h' : Host U) (t : list Event),
    runInterceptors instance route k ints req h = (Return true, h', t) →
    ∃ t0 k' v, t = t0 ++ [EvInterceptor k' (Return v)] ∧ truthy v = true.
Proof.
  induction ints as [| i rest IH]; intros k h h' t Hrun; simpl in Hrun.
  - unfold ret in Hrun. by simplify_eq.
  - unfold bind, awaitInterceptor in Hrun.
    destruct (i _ req _ h) as [[v | e] h1]; [| by simplify_eq].
    destruct (truthy v) eqn:Hv.
    + unfold ret in Hrun. simplify_eq. by exists [], k, v.
    + destruct (runInterceptors instance route (S k) rest req h1)
        as [[r2 h2] t2] eqn:Hrest.
      simplify_eq. destruct (IH _ _ _ _ Hrest) as (t0 & k' & v' & -> & Hv').
      by exists (EvInterceptor k (Return v) :: t0), k', v'.
Qed.

Lemma tryBlock_trace (startTime : Z) (req : Request) (h h1 : Host U)
    (r : Outcome bool) (t : list Event) :
  tryBlock isJson app instance route startTime req h = (r, h1, t) →
  existsb is_short_circuit t = match r with Return true => true | _ => false end
  ∧ (Forall observes (httpAfterRender app) ∨ existsb is_after_render t = false →
     forallb status_ok t = true)
  ∧ match r with
    | Throw _ => responses t = []
    | Return true =>
        forallb is_interceptor_event t = true
        ∧ ∃ t0 k v, t = t0 ++ [EvInterceptor k (Return v)] ∧ truthy v = true
    | Return false =>
        length (responses t) = 1%nat
        ∨ (responses t = [] ∧ existsb (is_silent_result isJson) t = true)
    end.
Proof.
  unfold tryBlock, bind.
  destruct (interceptorLoop app instance route req h) as [[[brk | e] h0] t0] eqn:Hloop.
  - pose proof (interceptorLoop_trace _ _ _ _ _ _ _ _ Hloop) as [Hall Hsc].
    pose proof (forallb_excludes _ _ _ interceptor_event_not_response Hall) as [_ Hresp].
    pose proof (forallb_implies _ _ _ interceptor_event_status_ok Hall) as Hst.
    destruct brk.
    + unfold ret. intros ?; simplify_eq. rewrite app_nil_r.
      split_and!; try done.
      unfold interceptorLoop in Hloop.
      destruct (0 <? length (httpInterceptors app))%nat.
      * eapply runInterceptors_break_last, Hloop.
      * unfold ret in Hloop. by simplify_eq.
    + destruct (afterInterceptors isJson app instance route startTime req h0)
        as [[r2 h2] t2] eqn:Hafter.
      intros ?; simplify_eq.
      destruct (afterInterceptors_trace _ _ _ _ _ _ _ _ _ _ Hafter)
        as (Hsc2 & Hst2 & Hne & Hresp2).
      rewrite !existsb_app, forallb_app, responses_app.
      unfold responses in *. rewrite Hsc, Hsc2, Hst, Hresp. simpl.
      split_and!; [by destruct r as [[] |] | |].
      { intros [Hobs | Hnone]; apply Hst2; [by left | right].
        by apply orb_false_elim in Hnone as [_ ?]. }
      destruct r as [[] |]; [done | | ]; rewrite ?existsb_app; try done.
      destruct Hresp2 as [? | [? Hsilent]]; [by left | right].
      by rewrite Hsilent, orb_true_r.
  - pose proof (interceptorLoop_trace _ _ _ _ _ _ _ _ Hloop) as [Hall Hsc].
    pose proof (forallb_excludes _ _ _ interceptor_event_not_response Hall) as [_ Hresp].
    pose proof (forallb_implies _ _ _ interceptor_event_status_ok Hall) as Hst.
    intros ?; by simplify_eq.
Qed.

(** The [catch] block when the thrown value has a readable [message]. *)
Lemma catchBlock_sends_envelope (startTime : Z) (req : Request) (e m : JsVal)
    (h : Host U) :
  get_prop e "message" = Return m →
  catchBlock startTime req e h =
  (Return tt,
   with_tele (Telemetry.finish "Request Process" (requestId req) (now h)) h,
   [EvConsoleError e; EvStatus 500;
    EvJson (VObj (withDebug req
      (Telemetry.snapshot (Telemetry.getTelemetry (requestId req)
         (Telemetry.finish "Request Process" (requestId req) (now h) (tele h))))
      [("status", VNum 500); ("processingTime", VNum (now h - startTime));
       ("message", if truthy m then m else VStr "Internal Server Error")]))]).
Proof.
  intros Hm. unfold catchBlock, bind, lift, telemetryEnd, dateNow, telemetryGet,
    emit, ret. simpl. by rewrite Hm.
Qed.

(** The [catch] block when reading [error.message] throws: nothing is
    written on the response. *)
Lemma catchBlock_rethrows (startTime : Z) (req : Request) (e e' : JsVal)
    (h : Host U) :
  get_prop e "message" = Throw e' →
  catchBlock startTime req e h =
  (Throw e',
   with_tele (Telemetry.finish "Request Process" (requestId req) (now h)) h,
   [EvConsoleError e]).
Proof.
  intros Hm. unfold catchBlock, bind, lift, telemetryEnd, dateNow, telemetryGet,
    emit, ret. simpl. by rewrite Hm.
Qed.

Lemma telemetryClear_cleared (rid : string) (h : Host U) :
  Telemetry.cleared rid (tele (telemetryClear rid h)).
Proof. unfold Telemetry.cleared, telemetryClear, Telemetry.clearTelemetry. simpl. apply lookup_delete_eq. Qed.

End ClosureFacts.

Section HandlerTheorems.
Context {U : Type}.
Variable isJson : JsVal -> bool.
Variable app : AppModule U.
Variable instance : ControllerInstance U.
Variable route : RouteDescriptor U.

(** A throwing controller method takes the [try] block to the [catch]
    block with the thrown value. *)
Lemma handler_exception_reaches_catch (startTime : Z) (req : Request)
    (h h0 h1 : Host U) (t0 : list Event) (args : JsArray)
    (f : Handler U) (e : JsVal) :
  interceptorLoop app instance route req h = (Return false, h0, t0) →
  Resolver.buildRouteArgs req (params route) = Return args →
  instance (handlerName route) = Some f →
  f (spread args)
    (with_tele (Telemetry.start "Controller Handler" (requestId req) (now h0)) h0)
  = (Throw e, h1) →
  tryBlock isJson app instance route startTime req h
  = (Throw e, h1, t0 ++ [EvHandler (handlerName route) (spread args) (Throw e)]).
Proof.
  intros Hloop Hargs Hinst Hf.
  unfold tryBlock, bind. rewrite Hloop.
  unfold afterInterceptors, bind, lift, telemetryStart, invokeHandler.
  rewrite Hargs, Hinst. simpl. by rewrite Hf.
Qed.

End HandlerTheorems.




(** The proviso on the hooks is needed: a hook that rewrites the envelope
    it is handed changes what [res.json] is called with, here to a body
    whose [status] is 404. *)
Lemma rewriting_hook_changes_the_envelope :
  ∃ (h' : Host nat) (t : list Event),
    handler isStructured
      (mkAppModule [] [fun _ _ _ _ h => (Return tt, h, VObj [("status", VNum 404)])])
      countingController countRoute sampleRequest hostAtEntry
    = (Return tt, h', t)
    ∧ responses t = [EvJson (VObj [("status", VNum 404)])]
    ∧ forallb status_ok t = false.
Proof. eexists _, _. split_and!; [vm_compute; reflexivity | reflexivity | reflexivity]. Qed.

(** C2. If, during a dispatch, some interceptor returns a truthy value,
    the dispatch stops there: that return is the last thing in the trace,
    the closure returns without throwing, and it has neither invoked the
    controller method, nor run an after-render hook, nor written a
    response. *)
Theorem short_circuit_stops_dispatch {U : Type} (isJson : JsVal -> bool)
    (app : AppModule U) (instance : ControllerInstance U) (route : RouteDescriptor U)
    (req : Request) (h h' : Host U) (r : Outcome unit) (t : list Event) :
  handler isJson app instance route req h = (r, h', t) →
  existsb is_short_circuit t = true →
  r = Return tt
  ∧ (∃ t0 k v, t = t0 ++ [EvInterceptor k (Return v)] ∧ truthy v = true)
  ∧ existsb is_handler_call t = false
  ∧ existsb is_after_render t = false
  ∧ responses t = [].
Proof.
  unfold handler.
  destruct (tryBlock isJson app instance route (now h) req h) as [[[brk | e] h1] t1] eqn:Htry;
    destruct (tryBlock_trace _ _ _ _ _ _ _ _ _ _ Htry) as (Hsc & Hst & Hshape).
  - destruct brk; intros ?; simplify_eq; [| congruence].
    intros _. destruct Hshape as [Hall Hlast].
    destruct (forallb_excludes _ _ _ interceptor_event_not_response Hall) as [_ Hresp].
    destruct (forallb_excludes _ _ _ interceptor_event_not_handler Hall) as [Hcall _].
    destruct (forallb_excludes _ _ _ interceptor_event_not_after_render Hall) as [Hafter _].
    done.
  - destruct (get_prop e "message") as [m | e'] eqn:Hm.
    + rewrite (catchBlock_sends_envelope _ _ _ _ _ Hm). intros ?; simplify_eq.
      rewrite existsb_app, Hsc. simpl. congruence.
    + rewrite (catchBlock_rethrows _ _ _ _ _ Hm). intros ?; simplify_eq.
      rewrite existsb_app, Hsc. simpl. congruence.
Qed.

Lemma short_circuit_stops_dispatch_witness :
  handler isStructured blockingApp countingController countRoute sampleRequest hostAtEntry
  = (Return tt, hostAtEntry, [EvInterceptor 0 (Return (VBool true))])
  ∧ user hostAtEntry = 0%nat
  ∧ (Return tt = Return tt :> Outcome unit)
  ∧ (∃ t0 k v, [EvInterceptor 0 (Return (VBool true))] = t0 ++ [EvInterceptor k (Return v)]
               ∧ truthy v = true)
  ∧ existsb is_handler_call [EvInterceptor 0 (Return (VBool true))] = false
  ∧ existsb is_after_render [EvInterceptor 0 (Return (VBool true))] = false
  ∧ responses [EvInterceptor 0 (Return (VBool true))] = [].
Proof.
  split; [reflexivity |]. split; [reflexivity |].
  apply (short_circuit_stops_dispatch isStructured blockingApp countingController
           countRoute sampleRequest hostAtEntry hostAtEntry (Return tt)
           [EvInterceptor 0 (Return (VBool true))]).
  - reflexivity.
  - reflexivity.
Defined.

(** The error path for a thrown value whose [message] can be read (any
    value but [null] and [undefined]). When the [try] block throws a value
    whose [message] reads [m], the closure does not re-throw: it logs the
    error and writes exactly one response, with HTTP status 500 and a JSON
    envelope holding status 500, the elapsed time as a number and the
    message [m], or "Internal Server Error" when [m] is falsy. With a
    truthy [debug] query value the envelope also holds the request
    identifier and the telemetry array; without it the envelope has these
    three fields only. *)
Theorem caught_error_sends_500_envelope {U : Type} (isJson : JsVal -> bool)
    (app : AppModule U) (instance : ControllerInstance U) (route : RouteDescriptor U)
    (req : Request) (h h1 : Host U) (t1 : list Event) (e m : JsVal) :
  tryBlock isJson app instance route (now h) req h = (Throw e, h1, t1) →
  get_prop e "message" = Return m →
  ∃ (env : list (string * JsVal)) (h2 : Host U),
    handler isJson app instance route req h
    = (Return tt, h2, t1 ++ [EvConsoleError e; EvStatus 500; EvJson (VObj env)])
    ∧ responses (t1 ++ [EvConsoleError e; EvStatus 500; EvJson (VObj env)])
      = [EvJson (VObj env)]
    ∧ obj_get env "status" = VNum 500
    ∧ obj_get env "processingTime" = VNum (now h1 - now h)
    ∧ obj_get env "message" = (if truthy m then m else VStr "Internal Server Error")
    ∧ (if truthy (obj_get (req_query req) "debug")
       then obj_get env "requestId" = VStr (requestId req)
            ∧ ∃ spans, obj_get env "telemetry" = VArr spans
       else map fst env = ["status"; "processingTime"; "message"]).
Proof.
  intros Htry Hm.
  destruct (tryBlock_trace _ _ _ _ _ _ _ _ _ _ Htry) as (_ & _ & Hresp).
  eexists _, _. split.
  - unfold handler. rewrite Htry, (catchBlock_sends_envelope _ _ _ _ _ Hm). reflexivity.
  - rewrite responses_app, Hresp. unfold withDebug.
    destruct (truthy (obj_get (req_query req) "debug")); simpl;
      split_and!; try done.
    by eexists.
Qed.

Lemma caught_error_sends_500_envelope_witness :
  ∃ (env : list (string * JsVal)) (h2 : Host nat),
    handler isStructured plainApp failingController countRoute debugRequest hostAtEntry
    = (Return tt, h2,
       [EvHandler "list" [VStr "42"] (Throw (Error "boom"))]
       ++ [EvConsoleError (Error "boom"); EvStatus 500; EvJson (VObj env)])
    ∧ responses ([EvHandler "list" [VStr "42"] (Throw (Error "boom"))]
                 ++ [EvConsoleError (Error "boom"); EvStatus 500; EvJson (VObj env)])
      = [EvJson (VObj env)]
    ∧ obj_get env "status" = VNum 500
    ∧ obj_get env "processingTime" = VNum (1007 - now hostAtEntry)
    ∧ obj_get env "message" = VStr "boom"
    ∧ (obj_get env "requestId" = VStr "req-1"
       ∧ ∃ spans, obj_get env "telemetry" = VArr spans).
Proof.
  apply (caught_error_sends_500_envelope isStructured plainApp failingController
           countRoute debugRequest hostAtEntry
           (mkHost 0%nat 1007
              (Telemetry.start "Controller Handler" "req-1" 1000
                 (Telemetry.start "Request Process" "req-1" 1000 ∅)))
           [EvHandler "list" [VStr "42"] (Throw (Error "boom"))]
           (Error "boom") (VStr "boom")).
  - vm_compute. reflexivity.
  - reflexivity.
Defined.

(** C3. The error path re-throws when the value thrown in the [try]
    block is [null] or [undefined], a thrown value with no message at all:
    the [catch] block logs it and then fails on reading [error.message],
    so the closure ends with a [TypeError] and no response has been
    written, neither a 500 envelope with the fallback message nor any
    other. *)
Theorem nullish_throw_escapes_the_catch_block {U : Type} (isJson : JsVal -> bool)
    (app : AppModule U) (instance : ControllerInstance U) (route : RouteDescriptor U)
    (req : Request) (h h1 : Host U) (t1 : list Event) (e : JsVal) :
  tryBlock isJson app instance route (now h) req h = (Throw e, h1, t1) →
  e = VUndefined ∨ e = VNull →
  ∃ msg,
    handler isJson app instance route req h
    = (Throw (TypeError msg),
       with_tele (Telemetry.finish "Request Process" (requestId req) (now h1)) h1,
       t1 ++ [EvConsoleError e])
    ∧ responses (t1 ++ [EvConsoleError e]) = [].
Proof.
  intros Htry Hnull.
  destruct (tryBlock_trace _ _ _ _ _ _ _ _ _ _ Htry) as (_ & _ & Hresp).
  assert (Hm : ∃ msg, get_prop e "message" = Throw (TypeError msg)).
  { destruct Hnull as [-> | ->]; by eexists. }
  destruct Hm as [msg Hm]. exists msg. split.
  - unfold handler. by rewrite Htry, (catchBlock_rethrows _ _ _ _ _ Hm).
  - by rewrite responses_app, Hresp.
Qed.

Lemma nullish_throw_escapes_the_catch_block_witness :
  ∃ msg,
    handler isStructured plainApp (fun _ => Some (fun _ h => (Throw VNull, h)))
      countRoute debugRequest hostAtEntry
    = (Throw (TypeError msg),
       with_tele (Telemetry.finish "Request Process" (requestId debugRequest)
                    (now (with_tele (Telemetry.start "Controller Handler" "req-1" 1000)
                            hostAtEntry)))
         (with_tele (Telemetry.start "Controller Handler" "req-1" 1000) hostAtEntry),
       [EvHandler "list" [VStr "42"] (Throw VNull)] ++ [EvConsoleError VNull])
    ∧ responses ([EvHandler "list" [VStr "42"] (Throw VNull)] ++ [EvConsoleError VNull])
      = [].
Proof.
  apply (nullish_throw_escapes_the_catch_block isStructured plainApp
           (fun _ => Some (fun _ h => (Throw VNull, h)))
           countRoute debugRequest hostAtEntry
           (with_tele (Telemetry.start "Controller Handler" "req-1" 1000) hostAtEntry)
           [EvHandler "list" [VStr "42"] (Throw VNull)] VNull).
  - vm_compute. reflexivity.
  - by right.
Defined.

(** C4. On the short-circuit branch the closure returns from inside the
    [try] block and [clearTelemetry] is not reached: the "Request Process"
    span opened for the request is still in the store afterwards. The same
    request without the interceptor ends with the store cleared. *)
Theorem short_circuit_skips_clearTelemetry :
  handler isStructured blockingApp countingController countRoute sampleRequest hostAtEntry
  = (Return tt, hostAtEntry, [EvInterceptor 0 (Return (VBool true))])
  ∧ Telemetry.getTelemetry "req-1" (tele hostAtEntry)
    = [Telemetry.mkSpan "Request Process" 1000 None]
  ∧ ¬ Telemetry.cleared "req-1" (tele hostAtEntry)
  ∧ Telemetry.cleared "req-1"
      (tele (snd (fst (handler isStructured plainApp countingController countRoute
                         sampleRequest hostAtEntry)))).
Proof.
  split_and!; [reflexivity | reflexivity | by vm_compute | by vm_compute].
Qed.

(** ** Routes with middlewares *)

Section WrapperFacts.
Context {U : Type}.
Variable isJson : JsVal -> bool.
Variable app : AppModule U.
Variable instance : ControllerInstance U.
Variable route : RouteDescriptor U.

Lemma runMiddlewares_trace (req : Request) (mws : list (Middleware U)) :
  ∀ (k : nat) (h h' : Host U) (r : Outcome unit) (t : list Event),
    runMiddlewares k mws req h = (r, h', t) →
    existsb is_handler_call t = false ∧ responses t = [].
Proof.
  induction mws as [| mw rest IH]; intros k h h' r t Hrun; simpl in Hrun.
  - unfold ret in Hrun. by simplify_eq.
  - unfold bind, awaitMiddleware in Hrun.
    destruct (mw req h) as [[err | e] h1]; [| by simplify_eq].
    destruct (truthy err); [by simplify_eq |].
    destruct (runMiddlewares (S k) rest req h1) as [[r2 h2] t2] eqn:Hrest.
    simplify_eq. destruct (IH _ _ _ _ _ Hrest) as [Hcall Hresp].
    unfold responses in *. simpl. by rewrite Hcall, Hresp.
Qed.

(** A route without middlewares is dispatched by the closure itself. *)
Lemma dispatch_without_middlewares (req : Request) :
  middlewares route = None →
  dispatch isJson app instance route req = handler isJson app instance route req.
Proof. intros Hnone. unfold dispatch. by rewrite Hnone. Qed.

(** A failing middleware hands the error to [next]: the closure does not
    run, the controller method is not invoked and the adapter writes no
    response. *)
Lemma middleware_failure_skips_handler (req : Request) (mws : list (Middleware U))
    (h h1 : Host U) (t1 : list Event) (e : JsVal) :
  runMiddlewares 0 mws req h = (Throw e, h1, t1) →
  wrappedHandler isJson app instance route mws req h
  = (Return tt, h1, t1 ++ [EvConsoleError e; EvNext e])
  ∧ existsb is_handler_call (t1 ++ [EvConsoleError e; EvNext e]) = false
  ∧ responses (t1 ++ [EvConsoleError e; EvNext e]) = [].
Proof.
  intros Hrun. destruct (runMiddlewares_trace _ _ _ _ _ _ _ Hrun) as [Hcall Hresp].
  split_and!.
  - unfold wrappedHandler, bind. by rewrite Hrun.
  - by rewrite existsb_app, Hcall.
  - by rewrite responses_app, Hresp.
Qed.

End WrapperFacts.

(** * Further properties *)

(** ** Splitting at colons *)

Lemma split_nonempty (sep : ascii) (s : string) : split sep s ≠ [].
Proof.
  induction s as [| c s IH]; simpl; [done |].
  destruct (Ascii.eqb c sep); [done |]. by destruct (split sep s).
Qed.

Lemma split_no_colon (s : string) :
  JsString.no_colon s = true → split ":"%char s = [s].
Proof.
  induction s as [| c s IH]; simpl; [done |].
  intros [Hc Hs]%andb_prop. apply negb_true_iff in Hc. rewrite Hc, (IH Hs). done.
Qed.

Lemma split_app_colon (a rest : string) :
  JsString.no_colon a = true →
  split ":"%char (a +:+ ":" +:+ rest) = a :: split ":"%char rest.
Proof.
  induction a as [| c a IH]; simpl; [done |].
  intros [Hc Ha]%andb_prop. apply negb_true_iff in Hc.
  change (split ":"%char (String c (a +:+ ":" +:+ rest)) = String c a :: split ":"%char rest).
  simpl. by rewrite Hc, (IH Ha).
Qed.

Lemma split_singleton (s k : string) : split ":"%char s = [k] → k = s.
Proof.
  revert k. induction s as [| c s IH]; intros k; simpl.
  - by intros [= <-].
  - destruct (Ascii.eqb c ":"%char).
    + intros [= <- Hnil]. by destruct (split_nonempty ":"%char s).
    + destruct (split ":"%char s) as [| hd tl] eqn:Hsplit;
        [by destruct (split_nonempty ":"%char s) |].
      intros [= <- ->]. by rewrite (IH hd).
Qed.

(** ** Parameter resolver, continued *)

Lemma destructure_bare_header (p : ParamDescriptor) :
  destructure p = ("header", None) ↔ paramType p = "header".
Proof.
  unfold destructure. split.
  - destruct (split ":"%char (paramType p)) as [| k [| n tl]] eqn:Hsplit; [done | | done].
    intros [= ->]. symmetry. by apply split_singleton.
  - intros ->. reflexivity.
Qed.

Lemma resolveParam_throws_iff (req : Request) (p : ParamDescriptor) :
  (∃ e, resolveParam req p = Throw e) ↔ paramType p = "header".
Proof.
  rewrite <- destructure_bare_header. unfold resolveParam.
  destruct (destructure p) as [kind name]. split.
  - intros [e He].
    repeat match type of He with
    | context [String.eqb kind ?k] =>
        destruct (String.eqb_spec kind k) as [-> | _]; simpl in He; try discriminate
    end.
    by destruct name.
  - intros [= -> ->]. simpl. by eexists.
Qed.

Lemma placeAll_throws_iff (req : Request) (ps : list ParamDescriptor) :
  ∀ a : JsArray,
    (∃ e, placeAll req a ps = Throw e) ↔ ∃ p, p ∈ ps ∧ paramType p = "header".
Proof.
  induction ps as [| p ps IH]; intros a; simpl.
  - split; [by intros [e ?] | intros (p & Hin & _); by apply elem_of_nil in Hin].
  - unfold placeParam. destruct (resolveParam req p) as [v | e] eqn:Hres.
    + rewrite IH. split.
      * intros (q & Hin & Hq). exists q. split; [by apply elem_of_cons; right | done].
      * intros (q & Hin & Hq). apply elem_of_cons in Hin as [-> | Hin]; [| by exists q].
        apply (resolveParam_throws_iff req) in Hq as [e He]. congruence.
    + split; [| by eexists].
      intros _. exists p. split; [by apply elem_of_cons; left |].
      apply (resolveParam_throws_iff req). by eexists.
Qed.

(** X1. [buildRouteArgs] throws exactly when some descriptor's
    [paramType] is the bare text "header" (a header descriptor without a
    name); with any other descriptors, or without a parameter list, it
    returns an argument array. *)
Theorem buildRouteArgs_throws_only_on_bare_header (req : Request)
    (params : option (list ParamDescriptor)) :
  (∃ e, buildRouteArgs req params = Throw e)
  ↔ ∃ ps p, params = Some ps ∧ p ∈ ps ∧ paramType p = "header".
Proof.
  destruct params as [ps |]; simpl.
  - rewrite placeAll_throws_iff. split.
    + intros (p & Hin & Hp). by exists ps, p.
    + intros (ps' & p & [= <-] & Hin & Hp). by exists p.
  - split; [by intros [e ?] | by intros (ps & p & ? & _)].
Qed.

Lemma array_set_length (a : JsArray) (i : nat) (v : JsVal) :
  length (array_set a i v) = (length a `max` S i)%nat.
Proof.
  unfold array_set. destruct (Nat.ltb_spec i (length a)).
  - rewrite length_insert. lia.
  - rewrite !length_app, length_replicate. simpl. lia.
Qed.

Lemma placeAll_length (req : Request) (ps : list ParamDescriptor) :
  ∀ a a' : JsArray,
    placeAll req a ps = Return a' →
    length a' = (length a `max` max_list (map (fun p => S (index p)) ps))%nat.
Proof.
  induction ps as [| p ps IH]; intros a a' Hrun; simpl in Hrun.
  - simplify_eq. simpl. lia.
  - unfold placeParam in Hrun. destruct (resolveParam req p) as [v | e]; [| done].
    rewrite (IH _ _ Hrun), array_set_length. simpl. lia.
Qed.

(** X2. The argument array is exactly as long as the largest declared
    index requires: its length is the maximum of [index + 1] over the
    descriptors, and zero when there are none. *)
Theorem buildRouteArgs_length (req : Request) (ps : list ParamDescriptor)
    (args : JsArray) :
  buildRouteArgs req (Some ps) = Return args →
  length args = max_list (map (fun p => S (index p)) ps)
  ∧ length (spread args) = length args.
Proof.
  simpl. intros Hrun. split.
  - by rewrite (placeAll_length _ _ _ _ Hrun).
  - unfold spread. apply length_map.
Qed.

Lemma buildRouteArgs_length_witness :
  length ([None; None; Some (VStr "foo")] : JsArray)
  = max_list (map (fun p => S (index p)) [mkParam "query:q" 2])
  ∧ length (spread [None; None; Some (VStr "foo")]) = length ([None; None; Some (VStr "foo")] : JsArray).
Proof.
  apply (buildRouteArgs_length sampleRequest [mkParam "query:q" 2]). reflexivity.
Defined.

Lemma array_set_keeps_hole (a : JsArray) (i j : nat) (v : JsVal) :
  i ≠ j →
  (a !! i = None ∨ a !! i = Some None) →
  array_set a j v !! i = None ∨ array_set a j v !! i = Some None.
Proof.
  intros Hne Hi. unfold array_set. destruct (Nat.ltb_spec j (length a)).
  - by rewrite list_lookup_insert_ne.
  - destruct (Nat.lt_ge_cases i (length a)) as [Hlt | Hge].
    + by rewrite lookup_app_l.
    + rewrite lookup_app_r by done.
      destruct (Nat.lt_ge_cases (i - length a) (j - length a)) as [Hin | Hout].
      * right. rewrite lookup_app_l by (by rewrite length_replicate).
        by apply lookup_replicate_2.
      * left. apply lookup_ge_None_2. rewrite length_app, length_replicate. simpl. lia.
Qed.

Lemma placeAll_keeps_hole (req : Request) (ps : list ParamDescriptor) (i : nat) :
  ∀ a a' : JsArray,
    placeAll req a ps = Return a' →
    Forall (fun p => index p ≠ i) ps →
    (a !! i = None ∨ a !! i = Some None) →
    a' !! i = None ∨ a' !! i = Some None.
Proof.
  induction ps as [| p ps IH]; intros a a' Hrun Hall Hi; simpl in Hrun.
  - by simplify_eq.
  - inversion Hall as [| ? ? Hp Hps]; subst.
    unfold placeParam in Hrun. destruct (resolveParam req p) as [v | e]; [| done].
    eapply IH; [exact Hrun | exact Hps |].
    apply array_set_keeps_hole; [congruence | done].
Qed.

(** X3. A position below the array's length that no descriptor declares
    is a hole, and the controller method receives [undefined] there. *)
Theorem undeclared_position_is_undefined (req : Request) (ps : list ParamDescriptor)
    (args : JsArray) (i : nat) :
  buildRouteArgs req (Some ps) = Return args →
  Forall (fun p => index p ≠ i) ps →
  (i < length args)%nat →
  args !! i = Some None ∧ spread args !! i = Some VUndefined.
Proof.
  simpl. intros Hrun Hall Hlt.
  assert (Hslot : args !! i = Some None).
  { destruct (placeAll_keeps_hole req ps i [] args Hrun Hall) as [Hnone | Hhole];
      [by left | | done].
    apply lookup_ge_None in Hnone. lia. }
  split; [done |]. unfold spread.
  change (map ?f ?l) with (f <$> l). by rewrite list_lookup_fmap, Hslot.
Qed.

Lemma undeclared_position_is_undefined_witness :
  ([None; None; Some (VStr "foo")] : JsArray) !! 1%nat = Some None
  ∧ spread [None; None; Some (VStr "foo")] !! 1%nat = Some VUndefined.
Proof.
  apply (undeclared_position_is_undefined sampleRequest [mkParam "query:q" 2]).
  - reflexivity.
  - repeat constructor. simpl. lia.
  - simpl. lia.
Defined.

Lemma destructure_kind_name (k n : string) (i : nat) :
  JsString.no_colon k = true → JsString.no_colon n = true →
  destructure (mkParam (k +:+ ":" +:+ n) i) = (k, Some n).
Proof.
  intros Hk Hn. unfold destructure. simpl.
  by rewrite (split_app_colon k n Hk), (split_no_colon n Hn).
Qed.

(** X4. A [paramType] written as kind, colon, name decodes to that kind
    and that name; whatever follows a second colon is ignored. *)
Theorem paramType_decodes (k n rest : string) (i : nat) :
  JsString.no_colon k = true → JsString.no_colon n = true →
  destructure (mkParam (k +:+ ":" +:+ n) i) = (k, Some n)
  ∧ destructure (mkParam (k +:+ ":" +:+ n +:+ ":" +:+ rest) i) = (k, Some n).
Proof.
  intros Hk Hn. split; [by apply destructure_kind_name |].
  unfold destructure. simpl.
  rewrite (split_app_colon k _ Hk), (split_app_colon n rest Hn).
  by destruct (split ":"%char rest).
Qed.

Lemma paramType_decodes_witness :
  destructure (mkParam ("param" +:+ ":" +:+ "id") 0) = ("param", Some "id")
  ∧ destructure (mkParam ("param" +:+ ":" +:+ "id" +:+ ":" +:+ "int") 0) = ("param", Some "id").
Proof.
  apply (paramType_decodes "param" "id" "int" 0); reflexivity.
Defined.

(** X5. A header descriptor reads the request header under the
    lower-cased name, so two descriptors whose names differ only in case
    resolve to the same value. *)
Theorem header_name_is_case_insensitive (req : Request) (n1 n2 : string) (i j : nat) :
  JsString.no_colon n1 = true → JsString.no_colon n2 = true →
  toLowerCase n1 = toLowerCase n2 →
  resolveParam req (mkParam ("header:" +:+ n1) i)
  = Return (obj_get (req_headers req) (toLowerCase n1))
  ∧ resolveParam req (mkParam ("header:" +:+ n1) i)
    = resolveParam req (mkParam ("header:" +:+ n2) j).
Proof.
  intros H1 H2 Heq.
  assert (Hres : ∀ n k, JsString.no_colon n = true →
            resolveParam req (mkParam ("header:" +:+ n) k)
            = Return (obj_get (req_headers req) (toLowerCase n))).
  { intros n k Hn. unfold resolveParam.
    change ("header:" +:+ n) with ("header" +:+ ":" +:+ n).
    by rewrite (destructure_kind_name "header" n k eq_refl Hn). }
  split; [by apply Hres |]. by rewrite !Hres, Heq.
Qed.

Lemma header_name_is_case_insensitive_witness :
  resolveParam sampleRequest (mkParam ("header:" +:+ "Host") 0)
  = Return (obj_get (req_headers sampleRequest) (toLowerCase "Host"))
  ∧ resolveParam sampleRequest (mkParam ("header:" +:+ "Host") 0)
    = resolveParam sampleRequest (mkParam ("header:" +:+ "HOST") 1).
Proof.
  apply (header_name_is_case_insensitive sampleRequest "Host" "HOST" 0 1); reflexivity.
Defined.

(** ** Listening address *)

Module ListenFacts.
Import JsString.

Lemma digits_value_uint (d : Decimal.uint) :
  ∀ acc : nat,
    digits_value acc (DecimalString.NilEmpty.string_of_uint d) = Nat.of_uint_acc d acc.
Proof.
  induction d as [| d IH | d IH | d IH | d IH | d IH | d IH | d IH | d IH | d IH | d IH];
    intros acc; [done | ..];
    simpl DecimalString.NilEmpty.string_of_uint; simpl Nat.of_uint_acc;
    rewrite Nat.tail_mul_spec;
    change (digits_value acc (String ?c ?s))
      with (digits_value (10 * acc + digit_value c) s);
    rewrite IH; f_equal; unfold digit_value;
    match goal with
    | |- context [nat_of_ascii ?c] =>
        let v := eval vm_compute in (nat_of_ascii c) in change (nat_of_ascii c) with v
    end; lia.
Qed.

Lemma uint_no_colon (d : Decimal.uint) :
  no_colon (DecimalString.NilEmpty.string_of_uint d) = true.
Proof. induction d; simpl; done. Qed.

Lemma uint_starts_with_digit (d : Decimal.uint) :
  d ≠ Decimal.Nil →
  starts_with_digit (DecimalString.NilEmpty.string_of_uint d) = true
  ∧ skip_spaces (DecimalString.NilEmpty.string_of_uint d)
    = DecimalString.NilEmpty.string_of_uint d
  ∧ ∀ c rest, DecimalString.NilEmpty.string_of_uint d = String c rest →
              Ascii.eqb c "-"%char = false ∧ Ascii.eqb c "+"%char = false.
Proof.
  destruct d; [done | ..]; intros _; simpl; (split; [done |]); (split; [done |]);
    intros c rest [= <- _]; done.
Qed.

Lemma to_uint_not_nil (n : nat) : Nat.to_uint n ≠ Decimal.Nil.
Proof.
  rewrite <- (DecimalNat.Unsigned.of_to n) at 1. rewrite DecimalNat.Unsigned.to_of.
  unfold Decimal.unorm. by destruct (Decimal.nzhead (Nat.to_uint n)).
Qed.

(** [parseInt] reads a decimal numeral back. *)
Lemma parseInt10_decimal (n : nat) : parseInt10 (decimal n) = Some (Z.of_nat n).
Proof.
  unfold parseInt10, decimal.
  destruct (uint_starts_with_digit (Nat.to_uint n) (to_uint_not_nil n))
    as (Hdigit & Hskip & Hsign).
  rewrite Hskip.
  destruct (DecimalString.NilEmpty.string_of_uint (Nat.to_uint n)) as [| c rest] eqn:Hstr;
    [done |].
  destruct (Hsign c rest eq_refl) as [-> ->]. simpl fst; simpl snd.
  rewrite Hdigit, <- Hstr, digits_value_uint.
  change (Nat.of_uint_acc (Nat.to_uint n) 0) with (Nat.of_uint (Nat.to_uint n)).
  rewrite DecimalNat.Unsigned.of_to. f_equal. lia.
Qed.

Lemma decimal_no_colon (n : nat) : no_colon (decimal n) = true.
Proof. apply uint_no_colon. Qed.

End ListenFacts.

(** X6. For a host without a colon and a port number in the valid range,
    [listen] on the text host, colon, port asks the transport to listen on
    exactly that port and that host, and settles as the transport
    answers. *)
Theorem listen_parses_host_and_port
    (serverListen : HttpServer -> option Z -> string -> Outcome JsVal * HttpServer)
    (a : Adapter) (srv : HttpServer) (host : string) (port : nat) :
  JsString.no_colon host = true →
  (Z.of_nat port ≤ 65535)%Z →
  httpServer a = Some srv →
  listenArgs (host +:+ ":" +:+ JsString.decimal port) = (Some (Z.of_nat port), host)
  ∧ fst (listen serverListen (host +:+ ":" +:+ JsString.decimal port) a)
    = match fst (serverListen srv (Some (Z.of_nat port)) host) with
      | Return err => if truthy err then Rejected err else Fulfilled VUndefined
      | Throw e => Rejected e
      end.
Proof.
  intros Hhost _ Hsrv.
  assert (Hargs : listenArgs (host +:+ ":" +:+ JsString.decimal port)
                  = (Some (Z.of_nat port), host)).
  { unfold listenArgs.
    rewrite (split_app_colon host _ Hhost),
      (split_no_colon _ (ListenFacts.decimal_no_colon port)).
    simpl. by rewrite ListenFacts.parseInt10_decimal. }
  split; [done |]. unfold listen. rewrite Hsrv, Hargs. simpl.
  by destruct (serverListen srv (Some (Z.of_nat port)) host) as [[err | e] srv'].
Qed.

Lemma listen_parses_host_and_port_witness :
  listenArgs ("0.0.0.0" +:+ ":" +:+ JsString.decimal 3000) = (Some (Z.of_nat 3000), "0.0.0.0")
  ∧ fst (listen (fun _ _ _ => (Return VUndefined, mkServer true))
           ("0.0.0.0" +:+ ":" +:+ JsString.decimal 3000) runningAdapter)
    = match fst ((fun _ _ _ => (Return VUndefined, mkServer true))
                   (mkServer true) (Some (Z.of_nat 3000)) "0.0.0.0") with
      | Return err => if truthy err then Rejected err else Fulfilled VUndefined
      | Throw e => Rejected e
      end.
Proof.
  apply (listen_parses_host_and_port (fun _ _ _ => (Return VUndefined, mkServer true))
           runningAdapter (mkServer true) "0.0.0.0" 3000); [reflexivity | lia | reflexivity].
Defined.

(** X7. Addresses that are not host, colon, port: without a colon the
    whole text is the host and the port is [NaN]; with more than one colon
    (an IPv6 literal, say) the host is the text before the first colon,
    the port is read from the text between the first two colons, and the
    rest is ignored. *)
Theorem listen_malformed_address (a b rest : string) :
  JsString.no_colon a = true → JsString.no_colon b = true →
  listenArgs a = (None, a)
  ∧ listenArgs (a +:+ ":" +:+ b +:+ ":" +:+ rest) = (JsString.parseInt10 b, a).
Proof.
  intros Ha Hb. unfold listenArgs. split.
  - by rewrite (split_no_colon a Ha).
  - rewrite (split_app_colon a _ Ha), (split_app_colon b rest Hb).
    by destruct (split ":"%char rest).
Qed.

Lemma listen_malformed_address_witness :
  listenArgs "localhost" = (None, "localhost")
  ∧ listenArgs ("localhost" +:+ ":" +:+ "" +:+ ":" +:+ "1:3000")
    = (JsString.parseInt10 "", "localhost").
Proof.
  apply (listen_malformed_address "localhost" "" "1:3000"); reflexivity.
Defined.

(** ** Connection tracking and shutdown *)

Lemma onSocketEvent_open (a : Adapter) (ev : SocketEvent) (s : nat) :
  bool_decide (s ∈ openConnections (onSocketEvent a ev))
  = match ev with
    | Connected s' => if Nat.eqb s s' then true else bool_decide (s ∈ openConnections a)
    | Closed s' => if Nat.eqb s s' then false else bool_decide (s ∈ openConnections a)
    end.
Proof.
  destruct ev as [s' | s']; simpl; destruct (Nat.eqb_spec s s') as [-> | Hne].
  - apply bool_decide_eq_true. set_solver.
  - apply bool_decide_ext. set_solver.
  - apply bool_decide_eq_false. set_solver.
  - apply bool_decide_ext. set_solver.
Qed.

Lemma trackOpenConnections_spec (evs : list SocketEvent) :
  ∀ (a : Adapter) (s : nat),
    (s ∈ openConnections (trackOpenConnections evs a)
     ↔ open_after evs (bool_decide (s ∈ openConnections a)) s = true)
    ∧ destroyed (trackOpenConnections evs a) = destroyed a
    ∧ httpServer (trackOpenConnections evs a) = httpServer a
    ∧ instance_enabled (trackOpenConnections evs a) = instance_enabled a.
Proof.
  unfold trackOpenConnections.
  induction evs as [| ev evs IH]; intros a s; simpl.
  - split; [| done]. split.
    + intros Hin. by apply bool_decide_eq_true.
    + intros Hin. by apply bool_decide_eq_true in Hin.
  - destruct (IH (onSocketEvent a ev) s) as (Hopen & Hd & Hs & He).
    rewrite Hopen, Hd, Hs, He, onSocketEvent_open.
    split; [by destruct ev | by destruct ev].
Qed.

Lemma close_connections_exact
    (serverClose : HttpServer -> Outcome JsVal * HttpServer) (a : Adapter) :
  openConnections (snd (close serverClose a)) = ∅
  ∧ destroyed (snd (close serverClose a)) = destroyed a ∪ openConnections a.
Proof.
  unfold close.
  destruct (closeOpenConnections_spec a) as (Ho & Hd & Hs & He).
  destruct (httpServer (closeOpenConnections a)) as [srv |]; simpl; [| done].
  destruct (truthy (connected (closeOpenConnections a))); simpl; [| done].
  by destruct (serverClose srv) as [[err | e] srv'].
Qed.

(** X8. After any sequence of connection and socket-close events, a
    socket is in the tracked set exactly when the last event about it is
    its connection, or, with no event about it, when it was tracked
    before; the listeners destroy nothing. *)
Theorem tracked_set_follows_events (evs : list SocketEvent) (a : Adapter) (s : nat) :
  (s ∈ openConnections (trackOpenConnections evs a)
   ↔ open_after evs (bool_decide (s ∈ openConnections a)) s = true)
  ∧ destroyed (trackOpenConnections evs a) = destroyed a.
Proof.
  destruct (trackOpenConnections_spec evs a s) as (Hopen & Hd & _). by split.
Qed.

(** X9. Whatever the transport answers, [close] leaves the tracked set
    empty and has destroyed exactly the sockets that were still open, on
    top of those destroyed earlier: a socket whose close event had been
    seen is not destroyed again. *)
Theorem close_destroys_exactly_open_sockets
    (serverClose : HttpServer -> Outcome JsVal * HttpServer)
    (evs : list SocketEvent) (a : Adapter) (s : nat) :
  openConnections (snd (close serverClose (trackOpenConnections evs a))) = ∅
  ∧ (s ∈ destroyed (snd (close serverClose (trackOpenConnections evs a)))
     ↔ s ∈ destroyed a
       ∨ open_after evs (bool_decide (s ∈ openConnections a)) s = true).
Proof.
  destruct (close_connections_exact serverClose (trackOpenConnections evs a)) as [Ho Hd].
  destruct (trackOpenConnections_spec evs a s) as (Hopen & Hdes & _).
  split; [done |]. rewrite Hd, Hdes, elem_of_union, Hopen. done.
Qed.

(** X10. When [this.instance.enabled] is falsy, [close] resolves without
    asking the transport to close: the server object is left as it was,
    still listening if it was listening. *)
Theorem close_with_falsy_enabled_keeps_server
    (serverClose : HttpServer -> Outcome JsVal * HttpServer)
    (a : Adapter) (srv : HttpServer) :
  httpServer a = Some srv →
  truthy (instance_enabled a) = false →
  fst (close serverClose a) = Resolves (VStr "")
  ∧ httpServer (snd (close serverClose a)) = Some srv.
Proof.
  intros Hsrv Hen. unfold close, connected.
  destruct (closeOpenConnections_spec a) as (_ & _ & Hs & He).
  rewrite Hs, Hsrv, He, Hen. simpl. by rewrite Hs.
Qed.

Lemma close_with_falsy_enabled_keeps_server_witness :
  fst (close nodeServerClose (mkAdapter ∅ ∅ (Some (mkServer true)) VUndefined))
  = Resolves (VStr "")
  ∧ httpServer (snd (close nodeServerClose (mkAdapter ∅ ∅ (Some (mkServer true)) VUndefined)))
    = Some (mkServer true).
Proof.
  apply (close_with_falsy_enabled_keeps_server nodeServerClose
           (mkAdapter ∅ ∅ (Some (mkServer true)) VUndefined) (mkServer true));
    reflexivity.
Defined.

(** ** Request-context middleware *)

Module MiddlewareFacts.
Import Middleware.

Ltac lower_names :=
  repeat match goal with
  | |- context [toLowerCase (String ?c ?s)] =>
      let v := eval vm_compute in (toLowerCase (String c s)) in
      change (toLowerCase (String c s)) with v
  end.

Lemma strip_keeps_absent (names : list string) (key : string) :
  ∀ hs : gmap string JsVal,
    hs !! key = None →
    foldl (fun acc name => removeHeader name acc) hs names !! key = None.
Proof.
  induction names as [| n names IH]; intros hs Hnone; simpl; [done |].
  apply IH. unfold removeHeader. rewrite lookup_delete. by case_decide.
Qed.

Lemma strip_removes (names : list string) (name : string) :
  ∀ hs : gmap string JsVal,
    name ∈ names →
    foldl (fun acc n => removeHeader n acc) hs names !! toLowerCase name = None.
Proof.
  induction names as [| n names IH]; intros hs Hin; simpl.
  - by apply elem_of_nil in Hin.
  - apply elem_of_cons in Hin as [-> | Hin]; [| by apply IH].
    apply strip_keeps_absent. unfold removeHeader. apply lookup_delete_eq.
Qed.

Lemma applyCustomHeaders_lookup (nonce name : string) (cfg : list (string * HeaderConfig)) :
  ∀ hs : gmap string JsVal,
    applyCustomHeaders nonce cfg hs !! toLowerCase name
    = match lastConfigured name cfg with
      | Some entry => Some (headerValue nonce (fst entry) (snd entry))
      | None => hs !! toLowerCase name
      end.
Proof.
  unfold applyCustomHeaders.
  induction cfg as [| entry cfg IH]; intros hs; simpl; [done |].
  rewrite IH. destruct (lastConfigured name cfg); [done |].
  unfold setHeader. rewrite lookup_insert.
  destruct (String.eqb_spec (toLowerCase (fst entry)) (toLowerCase name)) as [Heq | Hne];
    case_decide; congruence.
Qed.

Lemma setPolicyHeaders_lookup (hs : gmap string JsVal) (n v : string) :
  (n, v) ∈ policyHeaders →
  setPolicyHeaders hs !! toLowerCase n = Some (VStr v).
Proof.
  unfold policyHeaders, setPolicyHeaders, setHeader. simpl. intros Hin.
  repeat (apply elem_of_cons in Hin as [[= -> ->] | Hin];
          [lower_names; by simplify_map_eq |]).
  by apply elem_of_nil in Hin.
Qed.

Lemma setPolicyHeaders_other (hs : gmap string JsVal) (key : string) :
  key ∉ map (fun entry => toLowerCase (fst entry)) policyHeaders →
  setPolicyHeaders hs !! key = hs !! key.
Proof.
  unfold policyHeaders, setPolicyHeaders, setHeader. simpl. lower_names. intros Hnot.
  rewrite !lookup_insert_ne; [done | ..]; intros <-; apply Hnot; set_solver.
Qed.

Lemma write_method_not_get (m : string) :
  is_write_method m = true → String.eqb m "GET" = false.
Proof.
  unfold is_write_method. intros H.
  destruct (String.eqb_spec m "GET") as [-> | _]; [done | done].
Qed.

End MiddlewareFacts.

(** X11. On [POST], [PUT] and [DELETE] requests, unless
    [server.removePolicyHeaders] is set, none of the nine stripped headers
    is left on the response when the middleware calls [next()], whatever
    the [headers] configuration says: a configured Content-Security-Policy
    is dropped as well. *)
Theorem write_requests_lose_policy_headers (cfg : Middleware.Settings)
    (uuid1 uuid2 m name : string) (hs : gmap string JsVal) :
  Middleware.is_write_method m = true →
  Middleware.removePolicyHeaders cfg = false →
  name ∈ Middleware.strippedHeaders →
  Middleware.ctx_headers (Middleware.requestContext cfg uuid1 uuid2 m hs)
    !! toLowerCase name = None.
Proof.
  intros Hwrite Hcfg Hin. unfold Middleware.requestContext. simpl.
  rewrite (MiddlewareFacts.write_method_not_get m Hwrite), Hwrite, Hcfg. simpl.
  by apply MiddlewareFacts.strip_removes.
Qed.

Lemma write_requests_lose_policy_headers_witness :
  Middleware.ctx_headers
    (Middleware.requestContext
       (Middleware.mkSettings
          (Some [("Content-Security-Policy", Middleware.HString "default-src 'self'")]) false)
       "7d444840-9dc0-11d1-b245-5ffdce74fad2" "a1b2c3d4-0000-4000-8000-000000000000"
       "POST" ∅)
    !! toLowerCase "Content-Security-Policy" = None.
Proof.
  apply write_requests_lose_policy_headers; [reflexivity | reflexivity |].
  unfold Middleware.strippedHeaders. set_solver.
Defined.

(** X12. On [GET] requests, unless [server.removePolicyHeaders] is set,
    the four policy headers carry their fixed values when the middleware
    calls [next()], overriding a configured header of the same name. *)
Theorem get_requests_carry_policy_headers (cfg : Middleware.Settings)
    (uuid1 uuid2 n v : string) (hs : gmap string JsVal) :
  Middleware.removePolicyHeaders cfg = false →
  (n, v) ∈ Middleware.policyHeaders →
  Middleware.ctx_headers (Middleware.requestContext cfg uuid1 uuid2 "GET" hs)
    !! toLowerCase n = Some (VStr v).
Proof.
  intros Hcfg Hin. unfold Middleware.requestContext. simpl. rewrite Hcfg. simpl.
  by apply MiddlewareFacts.setPolicyHeaders_lookup.
Qed.

Lemma get_requests_carry_policy_headers_witness :
  Middleware.ctx_headers
    (Middleware.requestContext
       (Middleware.mkSettings (Some [("x-frame-options", Middleware.HString "DENY")]) false)
       "7d444840-9dc0-11d1-b245-5ffdce74fad2" "a1b2c3d4-0000-4000-8000-000000000000"
       "GET" ∅)
    !! toLowerCase "X-Frame-Options" = Some (VStr "SAMEORIGIN").
Proof.
  apply get_requests_carry_policy_headers; [reflexivity |].
  unfold Middleware.policyHeaders. set_solver.
Defined.

(** X13. When the policy handling does not apply (the method is neither
    [GET] nor a write method, or [server.removePolicyHeaders] is set) and
    the first middleware calls [next()], every [res.setHeader] call having
    accepted its value, a response header is by then what the last
    configuration entry of that name, case ignored, gives it, and is
    untouched when no entry names it. *)
Theorem custom_headers_last_entry_wins (cfg : Middleware.Settings)
    (uuid1 uuid2 m name : string) (hs : gmap string JsVal) :
  Middleware.removePolicyHeaders cfg = true
  ∨ (m ≠ "GET" ∧ Middleware.is_write_method m = false) →
  Middleware.ctx_headers (Middleware.requestContext cfg uuid1 uuid2 m hs)
    !! toLowerCase name
  = match Middleware.lastConfigured name (default [] (Middleware.customHeaders cfg)) with
    | Some entry =>
        Some (Middleware.headerValue
                (Middleware.ctx_nonce (Middleware.requestContext cfg uuid1 uuid2 m hs))
                (fst entry) (snd entry))
    | None => hs !! toLowerCase name
    end.
Proof.
  intros Hcase. unfold Middleware.requestContext. simpl.
  rewrite <- MiddlewareFacts.applyCustomHeaders_lookup.
  destruct Hcase as [-> | [Hget Hwrite]]; simpl.
  - by destruct (String.eqb m "GET"), (Middleware.is_write_method m).
  - rewrite Hwrite. by destruct (String.eqb_spec m "GET").
Qed.

Lemma custom_headers_last_entry_wins_witness :
  Middleware.ctx_headers
    (Middleware.requestContext
       (Middleware.mkSettings
          (Some [("X-App", Middleware.HString "one"); ("x-app", Middleware.HArray ["two"; "three"])])
          false)
       "7d444840-9dc0-11d1-b245-5ffdce74fad2" "a1b2c3d4-0000-4000-8000-000000000000"
       "PATCH" ∅)
    !! toLowerCase "X-APP"
  = Some (VStr "two; three").
Proof.
  apply (custom_headers_last_entry_wins
           (Middleware.mkSettings
              (Some [("X-App", Middleware.HString "one");
                     ("x-app", Middleware.HArray ["two"; "three"])]) false)
           "7d444840-9dc0-11d1-b245-5ffdce74fad2" "a1b2c3d4-0000-4000-8000-000000000000"
           "PATCH" "X-APP" ∅).
  right. split; [discriminate | reflexivity].
Defined.

(** X14. On a [GET] request, when the first middleware calls [next()],
    every [res.setHeader] call having accepted its value: if the last
    configuration entry named Content-Security-Policy, case ignored, is a
    string under exactly that spelling, the header carries by then that
    string with the nonce of the response appended when it does not
    mention [style-src], and the string as configured when it does; the
    nonce is the first eight characters of the second identifier drawn. *)
Theorem csp_header_carries_response_nonce (cfg : Middleware.Settings)
    (uuid1 uuid2 value : string) (hs : gmap string JsVal) :
  Middleware.lastConfigured "Content-Security-Policy"
    (default [] (Middleware.customHeaders cfg))
  = Some ("Content-Security-Policy", Middleware.HString value) →
  let ctx := Middleware.requestContext cfg uuid1 uuid2 "GET" hs in
  Middleware.ctx_nonce ctx = String.substring 0 8 uuid2
  ∧ Middleware.ctx_headers ctx !! "content-security-policy"
    = Some (VStr (if JsString.includes "style-src" value then value
                  else value +:+ " 'nonce-" +:+ Middleware.ctx_nonce ctx +:+ "'")).
Proof.
  intros Hlast ctx. split; [done |].
  unfold ctx, Middleware.requestContext. simpl.
  assert (Hcustom : Middleware.applyCustomHeaders (String.substring 0 8 uuid2)
                      (default [] (Middleware.customHeaders cfg)) hs
                    !! "content-security-policy"
                    = Some (VStr (Middleware.withNonce (String.substring 0 8 uuid2) value))).
  { change "content-security-policy" with (toLowerCase "Content-Security-Policy").
    by rewrite MiddlewareFacts.applyCustomHeaders_lookup, Hlast. }
  destruct (Middleware.removePolicyHeaders cfg); simpl;
    [| rewrite MiddlewareFacts.setPolicyHeaders_other];
    rewrite ?Hcustom; try done.
  unfold Middleware.policyHeaders. simpl. MiddlewareFacts.lower_names. set_solver.
Qed.

Lemma csp_header_carries_response_nonce_witness :
  let ctx :=
    Middleware.requestContext
      (Middleware.mkSettings
         (Some [("Content-Security-Policy", Middleware.HString "default-src 'self'")]) false)
      "7d444840-9dc0-11d1-b245-5ffdce74fad2" "a1b2c3d4-0000-4000-8000-000000000000"
      "GET" ∅ in
  Middleware.ctx_nonce ctx = String.substring 0 8 "a1b2c3d4-0000-4000-8000-000000000000"
  ∧ Middleware.ctx_headers ctx !! "content-security-policy"
    = Some (VStr (if JsString.includes "style-src" "default-src 'self'"
                  then "default-src 'self'"
                  else "default-src 'self'" +:+ " 'nonce-" +:+ Middleware.ctx_nonce ctx +:+ "'")).
Proof.
  apply (csp_header_carries_response_nonce
           (Middleware.mkSettings
              (Some [("Content-Security-Policy", Middleware.HString "default-src 'self'")])
              false)).
  reflexivity.
Defined.

(** ** Static pages *)

Section StaticPageFacts.
Variable pathJoin : list string -> string.
Variable existsSync : string -> bool.
Variable cwd : string.

Lemma firstExisting_some (candidates : list string) (file : string) :
  Middleware.firstExisting existsSync candidates = Some file →
  ∃ k, candidates !! k = Some file
       ∧ existsSync file = true
       ∧ ∀ j other, (j < k)%nat → candidates !! j = Some other → existsSync other = false.
Proof.
  induction candidates as [| c rest IH]; simpl; [done |].
  destruct (existsSync c) eqn:Hc.
  - intros [= <-]. exists 0%nat. split_and!; [done | done |]. intros j other Hlt. lia.
  - intros Hrest. destruct (IH Hrest) as (k & Hk & Hex & Hbefore).
    exists (S k). split_and!; [done | done |].
    intros [| j] other Hlt; simpl; [by intros [= <-] |].
    apply Hbefore. lia.
Qed.

Lemma firstExisting_none (candidates : list string) :
  Middleware.firstExisting existsSync candidates = None →
  ∀ file, file ∈ candidates → existsSync file = false.
Proof.
  induction candidates as [| c rest IH]; simpl.
  - intros _ file Hin. by apply elem_of_nil in Hin.
  - destruct (existsSync c) eqn:Hc; [done |].
    intros Hrest file [-> | Hin]%elem_of_cons; [done | by apply IH].
Qed.

End StaticPageFacts.

(** X15. A request whose path is not "/" and does not contain ".html" is
    passed on by the page middleware whatever the file system holds; its
    "Request Process" span has been opened all the same. *)
Theorem page_middleware_passes_other_paths
    (pathJoin : list string -> string) (existsSync : string -> bool) (cwd : string)
    (rid reqPath : string) (now : Z) (tele : gmap string (list Telemetry.Span)) :
  JsString.includes ".html" reqPath = false →
  reqPath ≠ "/" →
  fst (Middleware.staticPages pathJoin existsSync cwd rid reqPath now tele)
  = Middleware.PassOn
  ∧ Telemetry.getTelemetry rid
      (snd (Middleware.staticPages pathJoin existsSync cwd rid reqPath now tele))
    = Telemetry.getTelemetry rid tele ++ [Telemetry.mkSpan "Request Process" now None].
Proof.
  intros Hhtml Hroot. unfold Middleware.staticPages. rewrite Hhtml.
  destruct (String.eqb_spec reqPath "/") as [-> | _]; [done |]. simpl.
  split; [done |]. unfold Telemetry.getTelemetry, Telemetry.start.
  by rewrite lookup_insert_eq.
Qed.

Lemma page_middleware_passes_other_paths_witness :
  fst (Middleware.staticPages (String.concat "/") (fun _ => true) "/srv" "req-1"
         "/items/42" 1000 ∅)
  = Middleware.PassOn
  ∧ Telemetry.getTelemetry "req-1"
      (snd (Middleware.staticPages (String.concat "/") (fun _ => true) "/srv" "req-1"
              "/items/42" 1000 ∅))
    = Telemetry.getTelemetry "req-1" ∅ ++ [Telemetry.mkSpan "Request Process" 1000 None].
Proof.
  apply page_middleware_passes_other_paths; [reflexivity | discriminate].
Defined.

(** X16. For the path "/" or a path containing ".html" the page
    middleware never passes the request on. It renders a file only if the
    file exists, the file is one of the first three candidates, and no
    candidate before it exists; it answers 404 only if no candidate
    exists. *)
Theorem page_middleware_renders_first_existing
    (pathJoin : list string -> string) (existsSync : string -> bool) (cwd : string)
    (rid reqPath : string) (now : Z) (tele : gmap string (list Telemetry.Span)) :
  JsString.includes ".html" reqPath = true ∨ reqPath = "/" →
  match fst (Middleware.staticPages pathJoin existsSync cwd rid reqPath now tele) with
  | Middleware.PassOn => False
  | Middleware.Render file =>
      existsSync file = true
      ∧ ∃ k, (k < 3)%nat
             ∧ Middleware.possiblePaths pathJoin cwd reqPath !! k = Some file
             ∧ ∀ j other, (j < k)%nat →
                 Middleware.possiblePaths pathJoin cwd reqPath !! j = Some other →
                 existsSync other = false
  | Middleware.NotFound =>
      ∀ file, file ∈ Middleware.possiblePaths pathJoin cwd reqPath →
              existsSync file = false
  end.
Proof.
  intros Hcase. unfold Middleware.staticPages.
  assert (Hguard : negb (JsString.includes ".html" reqPath) && negb (String.eqb reqPath "/")
                   = false).
  { destruct Hcase as [-> | ->]; [done | by rewrite andb_false_r]. }
  rewrite Hguard.
  destruct (Middleware.firstExisting existsSync (Middleware.possiblePaths pathJoin cwd reqPath))
    as [file |] eqn:Hfirst; simpl.
  - destruct (firstExisting_some existsSync _ _ Hfirst) as (k & Hk & Hex & Hbefore).
    split; [done |]. exists k. split_and!; [| done | done].
    destruct k as [| [| [| k]]]; [lia | lia | lia |].
    unfold Middleware.possiblePaths in Hk, Hbefore.
    destruct k as [| k]; [| done]. simpl in Hk. injection Hk as <-.
    assert (Hsecond : existsSync
              (pathJoin [Middleware.publicDir pathJoin cwd;
                         Middleware.requestPath reqPath; "index.html"]) = false).
    { apply (Hbefore 1%nat); [lia | done]. }
    congruence.
  - by apply firstExisting_none.
Qed.

Lemma page_middleware_renders_first_existing_witness :
  match fst (Middleware.staticPages (String.concat "/")
               (String.eqb "/srv/public/views/index.html") "/srv" "req-1" "/" 1000 ∅) with
  | Middleware.PassOn => False
  | Middleware.Render file =>
      String.eqb "/srv/public/views/index.html" file = true
      ∧ ∃ k, (k < 3)%nat
             ∧ Middleware.possiblePaths (String.concat "/") "/srv" "/" !! k = Some file
             ∧ ∀ j other, (j < k)%nat →
                 Middleware.possiblePaths (String.concat "/") "/srv" "/" !! j = Some other →
                 String.eqb "/srv/public/views/index.html" other = false
  | Middleware.NotFound =>
      ∀ file, file ∈ Middleware.possiblePaths (String.concat "/") "/srv" "/" →
              String.eqb "/srv/public/views/index.html" file = false
  end.
Proof.
  apply (page_middleware_renders_first_existing (String.concat "/")
           (String.eqb "/srv/public/views/index.html") "/srv" "req-1" "/" 1000 ∅).
  by right.
Defined.

(** ** The dispatch closure, continued *)

Section ClosureSteps.
Context {U : Type}.
Variable isJson : JsVal -> bool.
Variable app : AppModule U.
Variable instance : ControllerInstance U.
Variable route : RouteDescriptor U.

(** The host state when the response is built: both spans closed at the
    time the controller method returned. *)
Lemma afterInterceptors_returned (startTime : Z) (req : Request) (h0 h1 : Host U)
    (args : JsArray) (f : Handler U) (v : JsVal) :
  Resolver.buildRouteArgs req (params route) = Return args →
  instance (handlerName route) = Some f →
  f (spread args)
    (with_tele (Telemetry.start "Controller Handler" (requestId req) (now h0)) h0)
  = (Return v, h1) →
  let h1' :=
    with_tele (Telemetry.finish "Request Process" (requestId req) (now h1))
      (with_tele (Telemetry.finish "Controller Handler" (requestId req) (now h1)) h1) in
  let telemetry := Telemetry.snapshot (Telemetry.getTelemetry (requestId req) (tele h1')) in
  afterInterceptors isJson app instance route startTime req h0
  = match
      (if isJson v then
         let response :=
           withDebug req telemetry
             [("status", VNum 200); ("processingTime", VNum (now h1 - startTime));
              ("data", v)] in
         bind (afterRenderLoop app instance route req (VObj response))
           (fun sent => bind (emit (EvJson sent)) (fun _ => ret false))
       else if truthy v then
         bind (afterRenderLoop app instance route req v)
           (fun sent => bind (emit (EvStatus 200))
              (fun _ => bind (emit (EvSend sent)) (fun _ => ret false)))
       else ret false) h1'
    with
    | (r, h2, t2) => (r, h2, EvHandler (handlerName route) (spread args) (Return v) :: t2)
    end.
Proof.
  intros Hargs Hinst Hf h1' telemetry.
  unfold afterInterceptors, bind at 1, lift. rewrite Hargs.
  unfold bind at 1, telemetryStart. unfold bind at 1, invokeHandler.
  rewrite Hinst, Hf. unfold bind at 1, telemetryEnd. unfold bind at 1, dateNow.
  unfold bind at 1. unfold bind at 1, telemetryGet. simpl.
  subst h1' telemetry. simpl.
  match goal with
  | |- context [(if isJson v then ?a else ?b) ?hh] =>
      destruct ((if isJson v then a else b) hh) as [[r2 h2] t2]
  end.
  reflexivity.
Qed.





(** What happens after the interceptors involves no interceptor, and an
    after-render hook only once the controller method has returned a
    result the adapter answers with. *)
Lemma afterInterceptors_events (startTime : Z) (req : Request) (h h1 : Host U)
    (r : Outcome bool) (t : list Event) :
  afterInterceptors isJson app instance route startTime req h = (r, h1, t) →
  existsb is_interceptor_event t = false
  ∧ (existsb is_handler_call t = false → existsb is_after_render t = false)
  ∧ (existsb is_after_render t = true → existsb (is_rendered_result isJson) t = true).
Proof.
  unfold afterInterceptors, bind, lift, telemetryStart, telemetryEnd, dateNow,
    telemetryGet, emit, ret, invokeHandler.
  destruct (Resolver.buildRouteArgs req (params route)) as [args | e];
    [| intros; by simplify_eq].
  destruct (instance (handlerName route)) as [f |];
    [| simpl; intros; by simplify_eq].
  simpl.
  destruct (f (spread args) _) as [[v | e] h2]; [| intros; by simplify_eq].
  simpl.
  destruct (isJson v) eqn:Hjson; [| destruct (truthy v) eqn:Hv].
  - destruct (afterRenderLoop _ _ _ _ _ _) as [[[sent | e] h3] t3] eqn:Hloop;
      apply afterRenderLoop_trace in Hloop;
      pose proof (forallb_excludes _ _ _ after_render_not_interceptor Hloop) as [Hint _];
      intros; simplify_eq; simpl; rewrite ?existsb_app, ?Hint, ?Hjson; done.
  - destruct (afterRenderLoop _ _ _ _ _ _) as [[[sent | e] h3] t3] eqn:Hloop;
      apply afterRenderLoop_trace in Hloop;
      pose proof (forallb_excludes _ _ _ after_render_not_interceptor Hloop) as [Hint _];
      intros; simplify_eq; simpl; rewrite ?existsb_app, ?Hint, ?Hjson, ?Hv; done.
  - intros; simplify_eq; simpl. done.
Qed.

Lemma no_interceptor_event_indices (t : list Event) :
  existsb is_interceptor_event t = false → omap interceptor_index t = [].
Proof.
  induction t as [| ev t IH]; [done |].
  intros [Hev Ht]%orb_false_elim.
  change (omap interceptor_index (ev :: t))
    with (match interceptor_index ev with
          | Some k => k :: omap interceptor_index t
          | None => omap interceptor_index t
          end).
  rewrite (IH Ht). by destruct ev.
Qed.

Lemma interceptor_events_only (t : list Event) :
  forallb is_interceptor_event t = true →
  existsb is_handler_call t = false
  ∧ existsb is_after_render t = false
  ∧ existsb (is_rendered_result isJson) t = false
  ∧ responses t = [].
Proof.
  induction t as [| ev t IH]; simpl; [done |].
  intros [Hev Ht]%andb_prop. destruct (IH Ht) as (? & ? & ? & Hresp).
  unfold responses in *. by destruct ev.
Qed.

End ClosureSteps.





(** X19. When an after-render hook throws a value whose [message] can
    be read (anything but [null] and [undefined]) after the controller
    method returned a structured result, the success envelope that was
    built is never written: the only response-writing call is
    [res.status(500).json] with the error envelope carrying that message,
    or "Internal Server Error" when the message is falsy. *)
Theorem after_render_failure_sends_500 {U : Type} (isJson : JsVal -> bool)
    (app : AppModule U) (instance : ControllerInstance U) (route : RouteDescriptor U)
    (req : Request) (h h0 h1 h2 : Host U) (t0 t2 : list Event) (args : JsArray)
    (f : Handler U) (v e m : JsVal) :
  interceptorLoop app instance route req h = (Return false, h0, t0) →
  Resolver.buildRouteArgs req (params route) = Return args →
  instance (handlerName route) = Some f →
  f (spread args)
    (with_tele (Telemetry.start "Controller Handler" (requestId req) (now h0)) h0)
  = (Return v, h1) →
  isJson v = true →
  let h1' :=
    with_tele (Telemetry.finish "Request Process" (requestId req) (now h1))
      (with_tele (Telemetry.finish "Controller Handler" (requestId req) (now h1)) h1) in
  let env :=
    withDebug req (Telemetry.snapshot (Telemetry.getTelemetry (requestId req) (tele h1')))
      [("status", VNum 200); ("processingTime", VNum (now h1 - now h)); ("data", v)] in
  afterRenderLoop app instance route req (VObj env) h1' = (Throw e, h2, t2) →
  get_prop e "message" = Return m →
  ∃ (h3 : Host U) (failure : list (string * JsVal)),
    handler isJson app instance route req h
    = (Return tt, h3,
       t0 ++ EvHandler (handlerName route) (spread args) (Return v)
          :: t2 ++ [EvConsoleError e; EvStatus 500; EvJson (VObj failure)])
    ∧ responses (t0 ++ EvHandler (handlerName route) (spread args) (Return v)
                   :: t2 ++ [EvConsoleError e; EvStatus 500; EvJson (VObj failure)])
      = [EvJson (VObj failure)]
    ∧ obj_get failure "status" = VNum 500
    ∧ obj_get failure "message" = (if truthy m then m else VStr "Internal Server Error").
Proof.
  intros Hloop Hargs Hinst Hf Hjson h1' env Hhooks Hm.
  pose proof (interceptorLoop_trace _ _ _ _ _ _ _ _ Hloop) as [Hall _].
  destruct (interceptor_events_only isJson _ Hall) as (_ & _ & _ & Hresp0).
  pose proof (afterRenderLoop_trace _ _ _ _ _ _ _ _ _ Hhooks) as Hall2.
  destruct (forallb_excludes _ _ _ after_render_not_response Hall2) as [_ Hresp2].
  eexists _, _. split_and!.
  - unfold handler, tryBlock, bind. rewrite Hloop.
    rewrite (afterInterceptors_returned isJson app instance route (now h) req h0 h1
               args f v Hargs Hinst Hf).
    cbv zeta. rewrite Hjson. unfold bind. fold h1' env. rewrite Hhooks.
    rewrite (catchBlock_sends_envelope _ _ _ _ _ Hm).
    simpl. rewrite <- app_assoc. reflexivity.
  - rewrite responses_app, Hresp0. simpl. unfold responses in *.
    by rewrite List.filter_app, Hresp2.
  - apply withDebug_status.
  - unfold withDebug. by destruct (truthy (obj_get _ _)).
Qed.

Lemma after_render_failure_sends_500_witness :
  ∃ (h3 : Host nat) (failure : list (string * JsVal)),
    handler isStructured
      (mkAppModule [] [fun _ _ _ c h => (Throw (Error "cache down"), h, c)])
      countingController countRoute sampleRequest hostAtEntry
    = (Return tt, h3,
       [] ++ EvHandler "list" [VStr "42"] (Return (VObj [("ok", VBool true)]))
          :: [EvAfterRender 0
                (VObj [("status", VNum 200); ("processingTime", VNum (1005 - 1000));
                       ("data", VObj [("ok", VBool true)])])]
             ++ [EvConsoleError (Error "cache down"); EvStatus 500; EvJson (VObj failure)])
    ∧ responses
        ([] ++ EvHandler "list" [VStr "42"] (Return (VObj [("ok", VBool true)]))
            :: [EvAfterRender 0
                  (VObj [("status", VNum 200); ("processingTime", VNum (1005 - 1000));
                         ("data", VObj [("ok", VBool true)])])]
               ++ [EvConsoleError (Error "cache down"); EvStatus 500; EvJson (VObj failure)])
      = [EvJson (VObj failure)]
    ∧ obj_get failure "status" = VNum 500
    ∧ obj_get failure "message" = VStr "cache down".
Proof.
  apply (after_render_failure_sends_500 isStructured
           (mkAppModule [] [fun _ _ _ c h => (Throw (Error "cache down"), h, c)])
           countingController countRoute sampleRequest hostAtEntry hostAtEntry
           (mkHost 1%nat 1005
              (Telemetry.start "Controller Handler" "req-1" 1000 (tele hostAtEntry)))
           (with_tele (Telemetry.finish "Request Process" "req-1" 1005)
              (with_tele (Telemetry.finish "Controller Handler" "req-1" 1005)
                 (mkHost 1%nat 1005
                    (Telemetry.start "Controller Handler" "req-1" 1000 (tele hostAtEntry)))))
           [] _ [Some (VStr "42")]
           (fun _ h => (Return (VObj [("ok", VBool true)]),
                        mkHost (S (user h)) (now h + 5) (tele h)))
           (VObj [("ok", VBool true)]) (Error "cache down") (VStr "cache down"));
    reflexivity.
Defined.

Section ClosureShape.
Context {U : Type}.
Variable isJson : JsVal -> bool.
Variable app : AppModule U.
Variable instance : ControllerInstance U.
Variable route : RouteDescriptor U.

Lemma afterInterceptors_failed_call (startTime : Z) (req : Request) (h h1 : Host U)
    (r : Outcome bool) (t : list Event) :
  afterInterceptors isJson app instance route startTime req h = (r, h1, t) →
  existsb is_failed_call t = true → existsb is_after_render t = false.
Proof.
  unfold afterInterceptors, bind, lift, telemetryStart, telemetryEnd, dateNow,
    telemetryGet, emit, ret, invokeHandler.
  destruct (Resolver.buildRouteArgs req (params route)) as [args | e];
    [| intros; by simplify_eq].
  destruct (instance (handlerName route)) as [f |];
    [| simpl; intros; by simplify_eq].
  simpl.
  destruct (f (spread args) _) as [[v | e] h2]; [| intros; by simplify_eq].
  simpl.
  assert (Hhooks : ∀ t3, forallb is_after_render t3 = true →
            existsb is_failed_call t3 = false).
  { intros t3 H3. apply (forallb_excludes is_after_render); [| done]. by intros []. }
  destruct (isJson v); [| destruct (truthy v)].
  - destruct (afterRenderLoop _ _ _ _ _ _) as [[[sent | e] h3] t3] eqn:Hloop;
      apply afterRenderLoop_trace in Hloop;
      intros; simplify_eq; simpl in *; rewrite ?existsb_app, ?(Hhooks _ Hloop) in *;
      simpl in *; try done.
  - destruct (afterRenderLoop _ _ _ _ _ _) as [[[sent | e] h3] t3] eqn:Hloop;
      apply afterRenderLoop_trace in Hloop;
      intros; simplify_eq; simpl in *; rewrite ?existsb_app, ?(Hhooks _ Hloop) in *;
      simpl in *; try done.
  - intros; by simplify_eq.
Qed.

(** The trace of the [try] block: what the interceptor loop did, then
    what followed it. *)
Lemma tryBlock_split (startTime : Z) (req : Request) (h h1 : Host U)
    (r : Outcome bool) (t : list Event) :
  tryBlock isJson app instance route startTime req h = (r, h1, t) →
  ∃ (rb : Outcome bool) (h0 : Host U) (t0 t1 : list Event),
    interceptorLoop app instance route req h = (rb, h0, t0)
    ∧ t = t0 ++ t1
    ∧ match rb with
      | Return false =>
          afterInterceptors isJson app instance route startTime req h0 = (r, h1, t1)
      | _ => t1 = []
      end.
Proof.
  unfold tryBlock, bind.
  destruct (interceptorLoop app instance route req h) as [[[[] | e] h0] t0] eqn:Hloop.
  - unfold ret. intros ?; simplify_eq. eexists (Return true), _, _, [].
    split_and!; [done | | done]. by rewrite !app_nil_r.
  - destruct (afterInterceptors isJson app instance route startTime req h0)
      as [[r2 h2] t2] eqn:Hafter.
    intros ?; simplify_eq. by eexists (Return false), _, _, _.
  - intros ?; simplify_eq. eexists (Throw _), _, _, [].
    split_and!; [done | | done]. by rewrite app_nil_r.
Qed.

(** The trace of the closure: the [try] block's, then what the [catch]
    block logged and wrote. *)
Lemma handler_split (req : Request) (h h' : Host U) (r : Outcome unit) (t : list Event) :
  handler isJson app instance route req h = (r, h', t) →
  ∃ (rt : Outcome bool) (h1 : Host U) (t1 t2 : list Event),
    tryBlock isJson app instance route (now h) req h = (rt, h1, t1)
    ∧ t = t1 ++ t2
    ∧ existsb is_interceptor_event t2 = false
    ∧ existsb is_handler_call t2 = false
    ∧ existsb is_after_render t2 = false
    ∧ existsb is_failed_call t2 = false
    ∧ existsb (is_rendered_result isJson) t2 = false.
Proof.
  unfold handler.
  destruct (tryBlock isJson app instance route (now h) req h) as [[[[] | e] h1] t1].
  - intros ?; simplify_eq. eexists (Return true), _, _, [].
    split_and!; try done. by rewrite app_nil_r.
  - intros ?; simplify_eq. eexists (Return false), _, _, [].
    split_and!; try done. by rewrite app_nil_r.
  - destruct (get_prop e "message") as [m | e'] eqn:Hm.
    + rewrite (catchBlock_sends_envelope _ _ _ _ _ Hm). intros ?; simplify_eq.
      by eexists (Throw e), _, _, _.
    + rewrite (catchBlock_rethrows _ _ _ _ _ Hm). intros ?; simplify_eq.
      by eexists (Throw e), _, _, _.
Qed.

Lemma resolveParam_throws_TypeError (req : Request) (p : ParamDescriptor) (e : JsVal) :
  resolveParam req p = Throw e →
  e = TypeError "Cannot read properties of undefined (reading 'toLowerCase')".
Proof.
  unfold resolveParam. destruct (destructure p) as [kind name].
  repeat match goal with
  | |- context [String.eqb kind ?k] => destruct (String.eqb kind k); try discriminate
  end.
  destruct name; [discriminate | by intros [= <-]].
Qed.

Lemma buildRouteArgs_throws_TypeError (req : Request)
    (params : option (list ParamDescriptor)) (e : JsVal) :
  buildRouteArgs req params = Throw e →
  e = TypeError "Cannot read properties of undefined (reading 'toLowerCase')".
Proof.
  destruct params as [ps |]; simpl; [| done].
  generalize (@nil (option JsVal)). induction ps as [| p ps IH]; intros a; simpl; [done |].
  unfold placeParam. destruct (resolveParam req p) as [v | e'] eqn:Hres.
  - apply IH.
  - intros [= <-]. by apply (resolveParam_throws_TypeError req p).
Qed.

End ClosureShape.

(** X20. An after-render hook runs only in a dispatch in which the
    controller method returned a result the adapter answers with; in a
    dispatch in which the controller method threw, no hook runs, so the
    hooks never see an error envelope. *)
Theorem after_render_only_after_a_result {U : Type} (isJson : JsVal -> bool)
    (app : AppModule U) (instance : ControllerInstance U) (route : RouteDescriptor U)
    (req : Request) (h h' : Host U) (r : Outcome unit) (t : list Event) :
  handler isJson app instance route req h = (r, h', t) →
  (existsb is_after_render t = true → existsb (is_rendered_result isJson) t = true)
  ∧ (existsb is_failed_call t = true → existsb is_after_render t = false).
Proof.
  intros Hrun.
  destruct (handler_split _ _ _ _ _ _ _ _ _ Hrun)
    as (rt & h1 & t1 & t2 & Htry & -> & _ & _ & Har2 & Hfail2 & Hres2).
  destruct (tryBlock_split _ _ _ _ _ _ _ _ _ _ Htry)
    as (rb & h0 & t0 & t3 & Hloop & -> & Hrest).
  pose proof (interceptorLoop_trace _ _ _ _ _ _ _ _ Hloop) as [Hall _].
  destruct (interceptor_events_only isJson _ Hall) as (_ & Har0 & Hres0 & _).
  assert (Hfail0 : existsb is_failed_call t0 = false).
  { apply (forallb_excludes is_interceptor_event); [by intros [] | done]. }
  rewrite !existsb_app, Har0, Har2, Hres0, Hres2, Hfail0, Hfail2, !orb_false_r. simpl.
  destruct rb as [[] | e]; subst; try done.
  destruct (afterInterceptors_events _ _ _ _ _ _ _ _ _ _ Hrest) as (_ & _ & Hhook).
  split; [done |]. by apply (afterInterceptors_failed_call _ _ _ _ _ _ _ _ _ _ Hrest).
Qed.

Lemma after_render_only_after_a_result_witness :
  (existsb is_after_render
     [EvHandler "list" [VStr "42"] (Throw (Error "boom"));
      EvConsoleError (Error "boom"); EvStatus 500;
      EvJson (VObj [("status", VNum 500); ("processingTime", VNum 7);
                    ("message", VStr "boom")])] = true →
   existsb (is_rendered_result isStructured)
     [EvHandler "list" [VStr "42"] (Throw (Error "boom"));
      EvConsoleError (Error "boom"); EvStatus 500;
      EvJson (VObj [("status", VNum 500); ("processingTime", VNum 7);
                    ("message", VStr "boom")])] = true)
  ∧ (existsb is_failed_call
       [EvHandler "list" [VStr "42"] (Throw (Error "boom"));
        EvConsoleError (Error "boom"); EvStatus 500;
        EvJson (VObj [("status", VNum 500); ("processingTime", VNum 7);
                      ("message", VStr "boom")])] = true →
     existsb is_after_render
       [EvHandler "list" [VStr "42"] (Throw (Error "boom"));
        EvConsoleError (Error "boom"); EvStatus 500;
        EvJson (VObj [("status", VNum 500); ("processingTime", VNum 7);
                      ("message", VStr "boom")])] = false).
Proof.
  apply (after_render_only_after_a_result isStructured
           (mkAppModule [] [fun _ _ _ c h => (Return tt, h, c)])
           failingController countRoute sampleRequest hostAtEntry
           (mkHost 0%nat 1007 ∅) (Return tt)).
  vm_compute. reflexivity.
Defined.



(** X22. An interceptor that throws is handled like a failing controller
    method: the interceptors after it and the controller method are not
    invoked, and the one response is the 500 envelope with the thrown
    value's message. *)
Theorem interceptor_exception_sends_500 {U : Type} (isJson : JsVal -> bool)
    (app : AppModule U) (instance : ControllerInstance U) (route : RouteDescriptor U)
    (req : Request) (h h0 : Host U) (t0 : list Event) (e m : JsVal) :
  interceptorLoop app instance route req h = (Throw e, h0, t0) →
  get_prop e "message" = Return m →
  ∃ (h' : Host U) (failure : list (string * JsVal)),
    handler isJson app instance route req h
    = (Return tt, h', t0 ++ [EvConsoleError e; EvStatus 500; EvJson (VObj failure)])
    ∧ existsb is_handler_call
        (t0 ++ [EvConsoleError e; EvStatus 500; EvJson (VObj failure)]) = false
    ∧ responses (t0 ++ [EvConsoleError e; EvStatus 500; EvJson (VObj failure)])
      = [EvJson (VObj failure)]
    ∧ obj_get failure "status" = VNum 500
    ∧ obj_get failure "message" = (if truthy m then m else VStr "Internal Server Error")
    ∧ Telemetry.cleared (requestId req) (tele h').
Proof.
  intros Hloop Hm.
  pose proof (interceptorLoop_trace _ _ _ _ _ _ _ _ Hloop) as [Hall _].
  destruct (interceptor_events_only isJson _ Hall) as (Hcall & _ & _ & Hresp).
  eexists _, _. split_and!.
  - unfold handler, tryBlock, bind. rewrite Hloop.
    rewrite (catchBlock_sends_envelope _ _ _ _ _ Hm). reflexivity.
  - by rewrite existsb_app, Hcall.
  - by rewrite responses_app, Hresp.
  - apply withDebug_status.
  - unfold withDebug. by destruct (truthy (obj_get _ _)).
  - apply telemetryClear_cleared.
Qed.

Lemma interceptor_exception_sends_500_witness :
  ∃ (h' : Host nat) (failure : list (string * JsVal)),
    handler isStructured
      (mkAppModule [fun _ _ _ h => (Throw (Error "denied"), h)] [])
      countingController countRoute sampleRequest hostAtEntry
    = (Return tt, h',
       [EvInterceptor 0 (Throw (Error "denied"))]
       ++ [EvConsoleError (Error "denied"); EvStatus 500; EvJson (VObj failure)])
    ∧ existsb is_handler_call
        ([EvInterceptor 0 (Throw (Error "denied"))]
         ++ [EvConsoleError (Error "denied"); EvStatus 500; EvJson (VObj failure)]) = false
    ∧ responses
        ([EvInterceptor 0 (Throw (Error "denied"))]
         ++ [EvConsoleError (Error "denied"); EvStatus 500; EvJson (VObj failure)])
      = [EvJson (VObj failure)]
    ∧ obj_get failure "status" = VNum 500
    ∧ obj_get failure "message" = VStr "denied"
    ∧ Telemetry.cleared (requestId sampleRequest) (tele h').
Proof.
  apply (interceptor_exception_sends_500 isStructured
           (mkAppModule [fun _ _ _ h => (Throw (Error "denied"), h)] [])
           countingController countRoute sampleRequest hostAtEntry hostAtEntry
           [EvInterceptor 0 (Throw (Error "denied"))] (Error "denied") (VStr "denied"));
    reflexivity.
Defined.

(** X23. A route that declares a header parameter without a name fails
    on every request that reaches argument resolution: the controller
    method is never invoked and the response is a 500 envelope whose
    message is that of the [TypeError]. *)
Theorem nameless_header_parameter_sends_500 {U : Type} (isJson : JsVal -> bool)
    (app : AppModule U) (instance : ControllerInstance U) (route : RouteDescriptor U)
    (req : Request) (h h0 : Host U) (t0 : list Event)
    (ps : list ParamDescriptor) (p : ParamDescriptor) :
  interceptorLoop app instance route req h = (Return false, h0, t0) →
  params route = Some ps →
  p ∈ ps →
  paramType p = "header" →
  ∃ (h' : Host U) (failure : list (string * JsVal)) (msg : string),
    handler isJson app instance route req h
    = (Return tt, h',
       t0 ++ [EvConsoleError (TypeError msg); EvStatus 500; EvJson (VObj failure)])
    ∧ existsb is_handler_call
        (t0 ++ [EvConsoleError (TypeError msg); EvStatus 500; EvJson (VObj failure)])
      = false
    ∧ obj_get failure "status" = VNum 500
    ∧ obj_get failure "message" = VStr msg.
Proof.
  intros Hloop Hparams Hin Hp.
  pose proof (interceptorLoop_trace _ _ _ _ _ _ _ _ Hloop) as [Hall _].
  destruct (interceptor_events_only isJson _ Hall) as (Hcall & _).
  destruct (proj2 (placeAll_throws_iff req ps []) (ex_intro _ p (conj Hin Hp))) as [e He].
  assert (Hargs : buildRouteArgs req (params route) = Throw e) by by rewrite Hparams.
  pose proof (buildRouteArgs_throws_TypeError _ _ _ Hargs) as ->.
  eexists _, _, _. split_and!.
  - unfold handler, tryBlock, bind. rewrite Hloop.
    unfold afterInterceptors, bind, lift. rewrite Hargs.
    erewrite catchBlock_sends_envelope; [| reflexivity].
    rewrite app_nil_r. reflexivity.
  - by rewrite existsb_app, Hcall.
  - apply withDebug_status.
  - unfold withDebug. by destruct (truthy (obj_get _ _)).
Qed.

Lemma nameless_header_parameter_sends_500_witness :
  ∃ (h' : Host nat) (failure : list (string * JsVal)) (msg : string),
    handler isStructured plainApp countingController
      (mkRoute "GET" (Some ":id") "list" (Some [mkParam "header" 0]) None)
      sampleRequest hostAtEntry
    = (Return tt, h',
       [] ++ [EvConsoleError (TypeError msg); EvStatus 500; EvJson (VObj failure)])
    ∧ existsb is_handler_call
        ([] ++ [EvConsoleError (TypeError msg); EvStatus 500; EvJson (VObj failure)])
      = false
    ∧ obj_get failure "status" = VNum 500
    ∧ obj_get failure "message" = VStr msg.
Proof.
  apply (nameless_header_parameter_sends_500 isStructured plainApp countingController
           (mkRoute "GET" (Some ":id") "list" (Some [mkParam "header" 0]) None)
           sampleRequest hostAtEntry hostAtEntry [] [mkParam "header" 0]
           (mkParam "header" 0)).
  - reflexivity.
  - reflexivity.
  - apply elem_of_cons. by left.
  - reflexivity.
Defined.

(** X24. When the controller method throws [undefined] or [null], the
    [catch] block itself fails on reading [error.message]: the closure
    throws a [TypeError], writes no response, and does not reach
    [clearTelemetry], so the spans of the request stay in the store. *)
Theorem nullish_exception_escapes_the_closure {U : Type} (isJson : JsVal -> bool)
    (app : AppModule U) (instance : ControllerInstance U) (route : RouteDescriptor U)
    (req : Request) (h h0 h1 : Host U) (t0 : list Event) (args : JsArray)
    (f : Handler U) (e : JsVal) :
  interceptorLoop app instance route req h = (Return false, h0, t0) →
  Resolver.buildRouteArgs req (params route) = Return args →
  instance (handlerName route) = Some f →
  f (spread args)
    (with_tele (Telemetry.start "Controller Handler" (requestId req) (now h0)) h0)
  = (Throw e, h1) →
  e = VUndefined ∨ e = VNull →
  ∃ msg,
    handler isJson app instance route req h
    = (Throw (TypeError msg),
       with_tele (Telemetry.finish "Request Process" (requestId req) (now h1)) h1,
       t0 ++ [EvHandler (handlerName route) (spread args) (Throw e); EvConsoleError e])
    ∧ responses
        (t0 ++ [EvHandler (handlerName route) (spread args) (Throw e); EvConsoleError e])
      = []
    ∧ (Telemetry.getTelemetry (requestId req) (tele h1) ≠ [] →
       ¬ Telemetry.cleared (requestId req)
           (Telemetry.finish "Request Process" (requestId req) (now h1) (tele h1))).
Proof.
  intros Hloop Hargs Hinst Hf Hnull.
  pose proof (interceptorLoop_trace _ _ _ _ _ _ _ _ Hloop) as [Hall _].
  destruct (interceptor_events_only isJson _ Hall) as (_ & _ & _ & Hresp).
  pose proof (handler_exception_reaches_catch isJson app instance route (now h) req
                h h0 h1 t0 args f e Hloop Hargs Hinst Hf) as Htry.
  assert (Hm : ∃ msg, get_prop e "message" = Throw (TypeError msg)).
  { destruct Hnull as [-> | ->]; by eexists. }
  destruct Hm as [msg Hm]. exists msg. split_and!.
  - unfold handler. rewrite Htry, (catchBlock_rethrows _ _ _ _ _ Hm).
    by rewrite <- app_assoc.
  - by rewrite responses_app, Hresp.
  - unfold Telemetry.getTelemetry, Telemetry.cleared, Telemetry.finish.
    rewrite lookup_alter_eq. by destruct (tele h1 !! requestId req).
Qed.

Lemma nullish_exception_escapes_the_closure_witness :
  ∃ msg,
    handler isStructured plainApp
      (fun _ => Some (fun _ h => (Throw VUndefined, h)))
      countRoute sampleRequest hostAtEntry
    = (Throw (TypeError msg),
       with_tele (Telemetry.finish "Request Process" "req-1" 1000)
         (with_tele (Telemetry.start "Controller Handler" "req-1" 1000) hostAtEntry),
       [] ++ [EvHandler "list" (spread [Some (VStr "42")]) (Throw VUndefined);
              EvConsoleError VUndefined])
    ∧ responses
        ([] ++ [EvHandler "list" (spread [Some (VStr "42")]) (Throw VUndefined);
                EvConsoleError VUndefined])
      = []
    ∧ (Telemetry.getTelemetry "req-1"
         (tele (with_tele (Telemetry.start "Controller Handler" "req-1" 1000) hostAtEntry))
       ≠ [] →
       ¬ Telemetry.cleared "req-1"
           (Telemetry.finish "Request Process" "req-1" 1000
              (tele (with_tele (Telemetry.start "Controller Handler" "req-1" 1000)
                       hostAtEntry)))).
Proof.
  apply (nullish_exception_escapes_the_closure isStructured plainApp
           (fun _ => Some (fun _ h => (Throw VUndefined, h)))
           countRoute sampleRequest hostAtEntry hostAtEntry
           (with_tele (Telemetry.start "Controller Handler" "req-1" 1000) hostAtEntry)
           [] [Some (VStr "42")] (fun _ h => (Throw VUndefined, h)) VUndefined);
    try reflexivity.
  by left.
Defined.

(** ** Routes with middlewares, continued *)

Section WrapperSteps.
Context {U : Type}.

Lemma runMiddlewares_app (req : Request) (pre rest : list (Middleware U)) :
  ∀ (k : nat) (h : Host U),
    runMiddlewares k (pre ++ rest) req h
    = match runMiddlewares k pre req h with
      | (Return _, h1, t1) =>
          match runMiddlewares (k + length pre) rest req h1 with
          | (r, h2, t2) => (r, h2, t1 ++ t2)
          end
      | (Throw e, h1, t1) => (Throw e, h1, t1)
      end.
Proof.
  induction pre as [| mw pre IH]; intros k h; simpl.
  - unfold ret. rewrite Nat.add_0_r.
    by destruct (runMiddlewares k rest req h) as [[r h2] t2].
  - unfold bind, awaitMiddleware.
    destruct (mw req h) as [[err | e] h1]; [| done].
    destruct (truthy err); [done |].
    rewrite IH. replace (k + S (length pre))%nat with (S k + length pre)%nat by lia.
    destruct (runMiddlewares (S k) pre req h1) as [[[[] | e] h2] t2]; [| done].
    by destruct (runMiddlewares (S k + length pre) rest req h2) as [[r h3] t3].
Qed.

Lemma runMiddlewares_indices (req : Request) (mws : list (Middleware U)) :
  ∀ (k : nat) (h h' : Host U) (r : Outcome unit) (t : list Event),
    runMiddlewares k mws req h = (r, h', t) →
    omap middleware_index t = seq k (length t)
    ∧ (length t ≤ length mws)%nat
    ∧ (r = Return tt → length t = length mws).
Proof.
  induction mws as [| mw rest IH]; intros k h h' r t Hrun; simpl in Hrun.
  - unfold ret in Hrun. simplify_eq. simpl. split_and!; [done | lia | done].
  - unfold bind, awaitMiddleware in Hrun.
    destruct (mw req h) as [[err | e] h1].
    + destruct (truthy err).
      * simplify_eq. simpl. split_and!; [done | lia | done].
      * destruct (runMiddlewares (S k) rest req h1) as [[r2 h2] t2] eqn:Hrest.
        simplify_eq. destruct (IH _ _ _ _ _ Hrest) as (Hidx & Hlen & Hall).
        simpl. split_and!; [f_equal; exact Hidx | lia |].
        intros Hr. by rewrite (Hall Hr).
    + simplify_eq. simpl. split_and!; [done | lia | done].
Qed.

End WrapperSteps.

(** X25. On a route with middlewares, the first middleware that reports
    an error to its callback ends the chain: the middlewares after it and
    the dispatch closure are not run, no response is written by the
    adapter, and the error is handed to [next] exactly as reported; the
    wrapper itself does not throw. *)
Theorem failing_middleware_ends_the_chain {U : Type} (isJson : JsVal -> bool)
    (app : AppModule U) (instance : ControllerInstance U) (route : RouteDescriptor U)
    (req : Request) (pre post : list (Middleware U)) (mw : Middleware U)
    (h h1 h2 : Host U) (t1 : list Event) (err : JsVal) :
  middlewares route = Some (pre ++ mw :: post) →
  runMiddlewares 0 pre req h = (Return tt, h1, t1) →
  mw req h1 = (Return err, h2) →
  truthy err = true →
  dispatch isJson app instance route req h
  = (Return tt, h2, t1 ++ [EvMiddleware (length pre); EvConsoleError err; EvNext err])
  ∧ omap middleware_index
      (t1 ++ [EvMiddleware (length pre); EvConsoleError err; EvNext err])
    = seq 0 (S (length pre))
  ∧ existsb is_handler_call
      (t1 ++ [EvMiddleware (length pre); EvConsoleError err; EvNext err]) = false
  ∧ responses (t1 ++ [EvMiddleware (length pre); EvConsoleError err; EvNext err]) = [].
Proof.
  intros Hmws Hpre Hmw Herr.
  destruct (runMiddlewares_trace req pre _ _ _ _ _ Hpre) as [Hcall Hresp].
  destruct (runMiddlewares_indices req pre _ _ _ _ _ Hpre) as (Hidx & _ & Hlen).
  specialize (Hlen eq_refl).
  split_and!.
  - unfold dispatch. rewrite Hmws. unfold wrappedHandler, bind.
    rewrite runMiddlewares_app, Hpre. simpl.
    unfold bind, awaitMiddleware. rewrite Hmw, Herr. by rewrite <- app_assoc.
  - rewrite omap_app, Hidx, Hlen. by rewrite seq_S.
  - by rewrite existsb_app, Hcall.
  - by rewrite responses_app, Hresp.
Qed.

Lemma failing_middleware_ends_the_chain_witness :
  dispatch isStructured plainApp countingController
    (mkRoute "GET" (Some ":id") "list" None
       (Some ([fun _ h => (Return VUndefined, h)]
              ++ (fun _ h => (Return (VStr "unauthorized"), h))
                 :: [fun _ h => (Return VUndefined, h)])))
    sampleRequest hostAtEntry
  = (Return tt, hostAtEntry,
     [EvMiddleware 0]
     ++ [EvMiddleware (length [fun (_ : Request) (h : Host nat) => (Return VUndefined, h)]);
         EvConsoleError (VStr "unauthorized"); EvNext (VStr "unauthorized")])
  ∧ omap middleware_index
      ([EvMiddleware 0]
       ++ [EvMiddleware (length [fun (_ : Request) (h : Host nat) => (Return VUndefined, h)]);
           EvConsoleError (VStr "unauthorized"); EvNext (VStr "unauthorized")])
    = seq 0 (S (length [fun (_ : Request) (h : Host nat) => (Return VUndefined, h)]))
  ∧ existsb is_handler_call
      ([EvMiddleware 0]
       ++ [EvMiddleware (length [fun (_ : Request) (h : Host nat) => (Return VUndefined, h)]);
           EvConsoleError (VStr "unauthorized"); EvNext (VStr "unauthorized")]) = false
  ∧ responses
      ([EvMiddleware 0]
       ++ [EvMiddleware (length [fun (_ : Request) (h : Host nat) => (Return VUndefined, h)]);
           EvConsoleError (VStr "unauthorized"); EvNext (VStr "unauthorized")]) = [].
Proof.
  apply (failing_middleware_ends_the_chain isStructured plainApp countingController
           (mkRoute "GET" (Some ":id") "list" None
              (Some ([fun _ h => (Return VUndefined, h)]
                     ++ (fun _ h => (Return (VStr "unauthorized"), h))
                        :: [fun _ h => (Return VUndefined, h)])))
           sampleRequest [fun _ h => (Return VUndefined, h)]
           [fun _ h => (Return VUndefined, h)]
           (fun _ h => (Return (VStr "unauthorized"), h))
           hostAtEntry hostAtEntry hostAtEntry [EvMiddleware 0] (VStr "unauthorized"));
    reflexivity.
Defined.



(** ** Controller binder, continued *)

Section BinderSteps.
Context {U : Type}.

(** What [registerRoute] does on a callable member whose call returns. *)
Lemma registerRoute_callable (inst : gmap string Member) (ci : ControllerInstance U)
    (pfx : string) (table : list (Registration U)) (r : RouteDescriptor U) :
  is_method inst (toLowerCase (method r)) = true →
  call_returns inst (toLowerCase (method r)) (fullPath pfx (path r)) = true →
  registerRoute inst ci pfx table r
  = Return (if adds_route inst (toLowerCase (method r)) (fullPath pfx (path r))
            then table ++ [mkRegistration (toLowerCase (method r))
                             (fullPath pfx (path r)) ci r]
            else table).
Proof.
  unfold is_method, call_returns, adds_route, registerRoute, member_truthy.
  destruct (inst !! toLowerCase (method r)) as [[call | v] |]; try done.
  by destruct (call (fullPath pfx (path r))) as [[] | e].
Qed.

(** A registration call that throws ends the binding of the routes with
    its exception. *)
Lemma registerRoute_call_throws (inst : gmap string Member) (ci : ControllerInstance U)
    (pfx : string) (table : list (Registration U)) (r : RouteDescriptor U)
    (call : string -> Outcome bool) (e : JsVal) (rest : list (RouteDescriptor U)) :
  inst !! toLowerCase (method r) = Some (Method call) →
  call (fullPath pfx (path r)) = Throw e →
  registerRoutes inst ci pfx table (r :: rest) = Throw e.
Proof.
  intros Hm He. simpl. unfold registerRoute, member_truthy. by rewrite Hm, He.
Qed.

Lemma adds_route_is_method (inst : gmap string Member) (name path : string) :
  is_method inst name = false → adds_route inst name path = false.
Proof.
  unfold is_method, adds_route. by destruct (inst !! name) as [[] |].
Qed.

Lemma registerRoutes_filter (inst : gmap string Member) (ci : ControllerInstance U)
    (pfx : string) (rs : list (RouteDescriptor U)) :
  ∀ table : list (Registration U),
    Forall (fun r => member_truthy inst (toLowerCase (method r))
                     = is_method inst (toLowerCase (method r))
                     ∧ call_returns inst (toLowerCase (method r))
                         (fullPath pfx (path r)) = true) rs →
    registerRoutes inst ci pfx table rs
    = Return (table
              ++ map (fun r => mkRegistration (toLowerCase (method r))
                                 (fullPath pfx (path r)) ci r)
                   (List.filter (fun r => adds_route inst (toLowerCase (method r))
                                            (fullPath pfx (path r))) rs)).
Proof.
  induction rs as [| r rs IH]; intros table Hall; simpl.
  - by rewrite app_nil_r.
  - inversion Hall as [| ? ? [Hr Hcall] Hrs]; subst.
    destruct (is_method inst (toLowerCase (method r))) eqn:Hm.
    + rewrite (registerRoute_callable _ _ _ _ _ Hm Hcall), (IH _ Hrs).
      destruct (adds_route inst _ _); simpl; [by rewrite <- app_assoc | done].
    + rewrite (registerRoute_skips _ _ _ _ _ Hr), (adds_route_is_method _ _ _ Hm).
      by apply IH.
Qed.

Lemma bindControllers_app (providers : gmap string JsVal) (inst : gmap string Member)
    (cs1 cs2 : list (ControllerClass U * ControllerMeta U)) :
  ∀ table : list (Registration U),
    bindControllers providers inst table (cs1 ++ cs2)
    = match bindControllers providers inst table cs1 with
      | Return table' => bindControllers providers inst table' cs2
      | Throw e => Throw e
      end.
Proof.
  induction cs1 as [| c cs1 IH]; intros table; simpl; [done |].
  destruct (bindController providers inst table c); [apply IH | done].
Qed.

End BinderSteps.

(** X27. On a server object on which every member named by a route is
    falsy or a function whose call with the route's full path returns,
    binding a controller's routes does not fail and adds, in declaration
    order, one entry per route whose call added a route: under the
    lower-cased method, at the route's full path, closing over the
    controller instance. Entries registered before are kept in front. *)
Theorem routes_are_registered_in_declaration_order {U : Type}
    (inst : gmap string Member) (ci : ControllerInstance U) (pfx : string)
    (table : list (Registration U)) (rs : list (RouteDescriptor U)) :
  Forall (fun r => member_truthy inst (toLowerCase (method r))
                   = is_method inst (toLowerCase (method r))
                   ∧ call_returns inst (toLowerCase (method r))
                       (fullPath pfx (path r)) = true) rs →
  registerRoutes inst ci pfx table rs
  = Return (table
            ++ map (fun r => mkRegistration (toLowerCase (method r))
                               (fullPath pfx (path r)) ci r)
                 (List.filter (fun r => adds_route inst (toLowerCase (method r))
                                          (fullPath pfx (path r))) rs)).
Proof. apply registerRoutes_filter. Qed.

Lemma routes_are_registered_in_declaration_order_witness :
  registerRoutes expressInstance (sampleController []) "tasks" []
    [wsRoute; listRoute; mkRoute "ENABLED" (Some "flag") "list" None None;
     mkRoute "post" None "list" None None]
  = Return ([]
            ++ map (fun r => mkRegistration (toLowerCase (method r))
                               (fullPath "tasks" (path r)) (sampleController []) r)
                 (List.filter (fun r => adds_route expressInstance (toLowerCase (method r))
                                          (fullPath "tasks" (path r)))
                    [wsRoute; listRoute; mkRoute "ENABLED" (Some "flag") "list" None None;
                     mkRoute "post" None "list" None None])).
Proof.
  apply (routes_are_registered_in_declaration_order expressInstance (sampleController [])
           "tasks" []
           [wsRoute; listRoute; mkRoute "ENABLED" (Some "flag") "list" None None;
            mkRoute "post" None "list" None None]).
  repeat constructor.
Defined.

(** X28. The guard of the binder tests truthiness, not callability: a
    route whose lower-cased method names a truthy member of the server
    object that is not a function makes binding throw a [TypeError], and
    the routes declared after it are not registered. *)
Theorem non_callable_member_aborts_binding {U : Type}
    (inst : gmap string Member) (ci : ControllerInstance U) (pfx : string)
    (table table1 : list (Registration U))
    (before after : list (RouteDescriptor U)) (r : RouteDescriptor U) (v : JsVal) :
  registerRoutes inst ci pfx table before = Return table1 →
  inst !! toLowerCase (method r) = Some (Data v) →
  truthy v = true →
  registerRoutes inst ci pfx table (before ++ r :: after)
  = Throw (TypeError "this.instance[method] is not a function").
Proof.
  intros Hbefore Hmember Hv. rewrite registerRoutes_app, Hbefore. simpl.
  unfold registerRoute, member_truthy. by rewrite Hmember, Hv.
Qed.

Lemma non_callable_member_aborts_binding_witness :
  registerRoutes expressInstance (sampleController []) "tasks" []
    ([listRoute] ++ mkRoute "MOUNTPATH" None "list" None None :: [listRoute])
  = Throw (TypeError "this.instance[method] is not a function").
Proof.
  apply (non_callable_member_aborts_binding expressInstance (sampleController []) "tasks"
           [] [mkRegistration "get" "/tasks/list" (sampleController []) listRoute]
           [listRoute] [listRoute] (mkRoute "MOUNTPATH" None "list" None None) (VStr "/"));
    reflexivity.
Defined.

(** X29. An exception thrown by a controller's constructor ends
    [registerControllers] with that exception: the controllers after it
    are neither constructed nor bound. *)
Theorem constructor_exception_aborts_binding {U : Type}
    (providers : gmap string JsVal) (inst : gmap string Member)
    (table1 : list (Registration U))
    (cs1 cs2 : list (ControllerClass U * ControllerMeta U))
    (c : ControllerClass U * ControllerMeta U) (e : JsVal) :
  registerControllers providers inst cs1 = Return table1 →
  construct (fst c) (resolveDependencies providers (paramtypes (fst c))) = Throw e →
  registerControllers providers inst (cs1 ++ c :: cs2) = Throw e.
Proof.
  unfold registerControllers. intros Hbefore Hctor.
  rewrite bindControllers_app, Hbefore. simpl. unfold bindController. by rewrite Hctor.
Qed.

Lemma constructor_exception_aborts_binding_witness :
  registerControllers ∅ expressInstance
    ([(sampleClass, sampleMeta)]
     ++ (mkClass None (fun _ => Throw (Error "no database")), sampleMeta)
        :: [(sampleClass, sampleMeta)])
  = Throw (Error "no database").
Proof.
  apply (constructor_exception_aborts_binding ∅ expressInstance
           [mkRegistration "get" "/tasks/list" (sampleController [VUndefined]) listRoute]
           [(sampleClass, sampleMeta)] [(sampleClass, sampleMeta)]
           (mkClass None (fun _ => Throw (Error "no database")), sampleMeta)
           (Error "no database")); reflexivity.
Defined.

(** X30. When every constructor returns and, for every route, the
    member named by its method is falsy or a function whose call with the
    route's full path returns, [registerControllers] returns a route table
    whose entries are, controller after controller in registry order and
    route after route in declaration order, the lower-cased method and
    full path of each route whose call added a route. *)
Theorem route_table_follows_registry_order {U : Type}
    (providers : gmap string JsVal) (inst : gmap string Member)
    (cs : list (ControllerClass U * ControllerMeta U)) :
  Forall (fun c =>
            (∃ ci, construct (fst c) (resolveDependencies providers (paramtypes (fst c)))
                   = Return ci)
            ∧ Forall (fun r => member_truthy inst (toLowerCase (method r))
                               = is_method inst (toLowerCase (method r))
                               ∧ call_returns inst (toLowerCase (method r))
                                   (fullPath (prefix (snd c)) (path r)) = true)
                (routes (snd c))) cs →
  ∃ table,
    registerControllers providers inst cs = Return table
    ∧ map reg_key table
      = concat (map (fun c =>
                       map (route_key (prefix (snd c)))
                         (List.filter
                            (fun r => adds_route inst (toLowerCase (method r))
                                        (fullPath (prefix (snd c)) (path r)))
                            (routes (snd c)))) cs).
Proof.
  unfold registerControllers.
  assert (Hgen : ∀ table,
    Forall (fun c =>
              (∃ ci, construct (fst c) (resolveDependencies providers (paramtypes (fst c)))
                     = Return ci)
              ∧ Forall (fun r => member_truthy inst (toLowerCase (method r))
                                 = is_method inst (toLowerCase (method r))
                                 ∧ call_returns inst (toLowerCase (method r))
                                     (fullPath (prefix (snd c)) (path r)) = true)
                  (routes (snd c))) cs →
    ∃ table',
      bindControllers providers inst table cs = Return table'
      ∧ map reg_key table'
        = map reg_key table
          ++ concat (map (fun c =>
                            map (route_key (prefix (snd c)))
                              (List.filter
                                 (fun r => adds_route inst (toLowerCase (method r))
                                             (fullPath (prefix (snd c)) (path r)))
                                 (routes (snd c)))) cs)).
  { induction cs as [| c cs IH]; intros table Hall; simpl.
    - exists table. by rewrite app_nil_r.
    - inversion Hall as [| ? ? [[ci Hci] Hroutes] Hcs]; subst.
      unfold bindController.
      rewrite Hci, (registerRoutes_filter inst ci (prefix (snd c)) _ table Hroutes).
      match goal with
      | |- context [bindControllers providers inst ?t cs] =>
          destruct (IH t Hcs) as (table' & Hbind & Hkeys)
      end.
      exists table'. split; [done |].
      rewrite Hkeys, map_app, map_map, <- app_assoc. done. }
  intros Hall. destruct (Hgen [] Hall) as (table & Hbind & Hkeys). by exists table.
Qed.

Lemma route_table_follows_registry_order_witness :
  ∃ table,
    registerControllers ∅ expressInstance
      [(sampleClass, sampleMeta); (sampleClass, mkMeta "jobs" [listRoute])]
    = Return table
    ∧ map reg_key table
      = concat (map (fun c =>
                       map (route_key (prefix (snd c)))
                         (List.filter
                            (fun r => adds_route expressInstance (toLowerCase (method r))
                                        (fullPath (prefix (snd c)) (path r)))
                            (routes (snd c))))
                  [(sampleClass, sampleMeta); (sampleClass, mkMeta "jobs" [listRoute])]).
Proof.
  apply (route_table_follows_registry_order ∅ expressInstance
           [(sampleClass, sampleMeta); (sampleClass, mkMeta "jobs" [listRoute])]).
  repeat constructor; by eexists.
Defined.
